(** * Fish classifier: the prediction service

    A shallow embedding of [backend/app/services/prediction.py]
    (class [PredictionService]) and the properties of its decision and
    scoring engine.

    Conventions of the embedding:
    - a Python [float] is an IEEE 754 binary64 value: Rocq's primitive
      [float], whose comparisons and arithmetic are the machine's;
    - a [Dict[str, float]] is a [gmap string float]; the species catalog,
      whose iteration order matters, is an association list;
    - an exception is the [Raise] case of [result]; [try]/[except] is a
      [match] on it;
    - the trained models are fields of the service record: functions that
      may raise;
    - logging is left out, and building a request object from floats
      does not fail. *)

From Stdlib Require Import ZArith QArith Lia Floats Bool.
From stdpp Require Import base option list gmap strings.

Set Warnings "-inexact-float".

(** ** Python comparisons on floats

    [a >= b] and [a > b] are IEEE [b <= a] and [b < a]; a chained
    comparison [a <= x <= b] is [a <= x and x <= b]. *)

Declare Scope py_scope.
Delimit Scope py_scope with py.
Notation "a <= b" := (PrimFloat.leb a b) : py_scope.
Notation "a < b" := (PrimFloat.ltb a b) : py_scope.
Notation "a >= b" := (PrimFloat.leb b a) : py_scope.
Notation "a > b" := (PrimFloat.ltb b a) : py_scope.
Notation "a <= b <= c" := (PrimFloat.leb a b && PrimFloat.leb b c) : py_scope.

(** Truth value of a float in [if x:]: false exactly for [0.0] and
    [-0.0]; a NaN is true. *)
Definition py_bool (x : float) : bool := negb (PrimFloat.eqb x 0).

(** [float(n)] for the small integers the service computes with. *)
Definition py_float (n : Z) : float := PrimFloat.of_uint63 (Uint63.of_Z n).

(** ** Exceptions

    The values of [exn] stand for instances of Python's [Exception],
    the class every handler of the service names ([except Exception]).
    An interrupt or exit raised inside a model is not an [Exception]
    and is outside the embedding: a model's call returns or raises an
    [Exception]. *)

Inductive exn : Type :=
  | ModelError (msg : string)
  | IndexError.

Inductive result (A : Type) : Type :=
  | Ok (a : A)
  | Raise (e : exn).
Arguments Ok {A} a.
Arguments Raise {A} e.

#[global] Instance result_ret : MRet result := fun A a => Ok a.
#[global] Instance result_bind : MBind result := fun A B f m =>
  match m with
  | Ok a => f a
  | Raise e => Raise e
  end.

(** [l[i]] on a Python list. *)
Definition py_index (l : list float) (i : nat) : result float :=
  match l !! i with
  | Some x => Ok x
  | None => Raise IndexError
  end.

(** [r[0] <= x <= r[1]]: the second bound is read only when the first
    comparison holds. *)
Definition py_between (r : list float) (x : float) : result bool :=
  lo ← py_index r 0;
  if (lo <= x)%py then hi ← py_index r 1; Ok (x <= hi)%py else Ok false.

(** [a and b] on conditions that may raise: [b] is evaluated only when
    [a] is true. *)
Definition py_and (a b : result bool) : result bool :=
  x ← a; if x : bool then b else Ok false.

(** [r or d] on an optional list: [None] and [[]] are false. *)
Definition py_or (r : option (list float)) (d : list float) : list float :=
  match r with
  | Some (x :: l) => x :: l
  | _ => d
  end.

(** ** Data model *)

Record FishSpeciesInfo : Type := mkFishSpeciesInfo {
  name : string;
  scientific_name : option string;
  ideal_ph_range : option (list float);
  ideal_temperature_range : option (list float);
  ideal_turbidity_range : option (list float);
  description : option string
}.

(** [FishSpeciesInfo(name=species)] *)
Definition FishSpeciesInfo_of_name (species : string) : FishSpeciesInfo :=
  mkFishSpeciesInfo species None None None None None.

Module BasicFishPredictionRequest.
Record t : Type := mk {
  ph : float;
  temperature : float;
  turbidity : float
}.
End BasicFishPredictionRequest.

Module AdvancedFishPredictionRequest.
Record t : Type := mk {
  temperature : float;
  turbidity : float;
  dissolved_oxygen : float;
  bod : float;
  co2 : float;
  ph : float;
  alkalinity : float;
  hardness : float;
  calcium : float;
  ammonia : float;
  nitrite : float;
  phosphorus : float;
  h2s : float;
  plankton : float
}.
End AdvancedFishPredictionRequest.

(** One entry of [parameter_analysis]:
    [{'value': .., 'status': .., 'recommendation': ..}]. *)
Record ParameterAnalysis : Type := mkParameterAnalysis {
  value : float;
  status : string;
  recommendation : option string
}.

Record PredictionResult : Type := mkPredictionResult {
  predicted_species : string;
  confidence : float;
  water_quality_score : option float;
  parameter_analysis : gmap string ParameterAnalysis;
  suitable_species : list FishSpeciesInfo
}.

(** The species models: [predict(input_data)] returns the dictionary
    with ['predicted_species'] and ['confidence'], or raises. *)
Record FishPredictionModel : Type := mkFishPredictionModel {
  predict : gmap string float → result (string * float)
}.

(** The water-quality model: [model] is the truth value of its [.model]
    attribute (false when no model is loaded). *)
Record WaterQualityModel : Type := mkWaterQualityModel {
  model : bool;
  predict_score : gmap string float → result float
}.

Record PredictionService : Type := mkPredictionService {
  basic_model : FishPredictionModel;
  advanced_model : FishPredictionModel;
  water_quality_model : WaterQualityModel;
  fish_species_info : list (string * FishSpeciesInfo)
}.

(** [d.get(key)] on the catalog. *)
Fixpoint dict_get (d : list (string * FishSpeciesInfo)) (key : string)
  : option FishSpeciesInfo :=
  match d with
  | [] => None
  | (k, v) :: rest => if String.eqb k key then Some v else dict_get rest key
  end.

(** ** The species catalog ([_initialize_species_info]) *)

Definition _initialize_species_info : list (string * FishSpeciesInfo) :=
  [ ("Tilapia", mkFishSpeciesInfo "Tilapia" (Some "Oreochromis niloticus")
       (Some [6.5; 8.0]) (Some [25.0; 30.0]) (Some [30.0; 80.0])
       (Some "Tilapia is a hardy fish that can tolerate a wide range of water conditions. It's popular in aquaculture due to its fast growth rate and adaptability."));
    ("Catfish", mkFishSpeciesInfo "Catfish" (Some "Clarias gariepinus")
       (Some [6.0; 8.0]) (Some [24.0; 28.0]) (Some [20.0; 60.0])
       (Some "Catfish are bottom-dwelling fish that can tolerate low oxygen levels and poor water quality. They are widely farmed for their high-quality meat."));
    ("Carp", mkFishSpeciesInfo "Carp" (Some "Cyprinus carpio")
       (Some [6.5; 9.0]) (Some [20.0; 28.0]) (Some [30.0; 70.0])
       (Some "Carp is one of the most widely cultivated freshwater fish. It's tolerant of poor water conditions and can survive in water with low oxygen levels."));
    ("Salmon", mkFishSpeciesInfo "Salmon" (Some "Salmo salar")
       (Some [6.5; 8.0]) (Some [10.0; 16.0]) (Some [5.0; 20.0])
       (Some "Salmon require clean, cold, oxygen-rich water. They are sensitive to water quality changes and need pristine conditions for optimal growth."));
    ("Trout", mkFishSpeciesInfo "Trout" (Some "Oncorhynchus mykiss")
       (Some [6.5; 8.0]) (Some [12.0; 18.0]) (Some [5.0; 25.0])
       (Some "Trout are cold-water fish that require high-quality water with good oxygen levels. They're sensitive to pollution and temperature changes."));
    ("Shrimp", mkFishSpeciesInfo "Shrimp" (Some "Litopenaeus vannamei")
       (Some [7.0; 8.5]) (Some [26.0; 32.0]) (Some [30.0; 60.0])
       (Some "Shrimp are highly sensitive to water quality parameters. They require stable conditions with careful management of ammonia and nitrite levels."));
    ("Goldfish", mkFishSpeciesInfo "Goldfish" (Some "Carassius auratus")
       (Some [6.0; 8.0]) (Some [20.0; 25.0]) (Some [20.0; 50.0])
       (Some "Goldfish are hardy freshwater fish that can adapt to various water conditions. They're popular ornamental fish and can tolerate cooler temperatures."))
  ]%float.

(** [__init__]: the three models are the service's collaborators, the
    catalog is built here. *)
Definition PredictionService_init
    (basic advanced : FishPredictionModel) (water_quality : WaterQualityModel)
  : PredictionService :=
  mkPredictionService basic advanced water_quality _initialize_species_info.

(** ** The weighted score ([_calculate_water_quality_score])

    [score] and [total_weight] start as the integer [0]; adding a float
    to it gives that float, as adding it to [0.0] does. *)

Definition _calculate_water_quality_score (data : gmap string float) : float :=
  let score := 0%float in
  let total_weight := 0%float in
  (* pH *)
  let '(score, total_weight) :=
    match data !! "ph" with
    | Some ph =>
        let weight := 1.5%float in
        let total_weight := (total_weight + weight)%float in
        if (6.5 <= ph <= 8.5)%py then ((score + weight * 1.0)%float, total_weight)
        else if (6.0 <= ph <= 9.0)%py then ((score + weight * 0.7)%float, total_weight)
        else ((score + weight * 0.3)%float, total_weight)
    | None => (score, total_weight)
    end in
  (* Temperature *)
  let '(score, total_weight) :=
    match data !! "temperature" with
    | Some temp =>
        let weight := 1.0%float in
        let total_weight := (total_weight + weight)%float in
        if (20 <= temp <= 30)%py then ((score + weight * 1.0)%float, total_weight)
        else if (15 <= temp <= 35)%py then ((score + weight * 0.7)%float, total_weight)
        else ((score + weight * 0.3)%float, total_weight)
    | None => (score, total_weight)
    end in
  (* Dissolved Oxygen *)
  let '(score, total_weight) :=
    match data !! "dissolved_oxygen" with
    | Some do_ =>
        let weight := 2.0%float in
        let total_weight := (total_weight + weight)%float in
        if (do_ >= 6.0)%py then ((score + weight * 1.0)%float, total_weight)
        else if (do_ >= 4.0)%py then ((score + weight * 0.7)%float, total_weight)
        else ((score + weight * 0.3)%float, total_weight)
    | None => (score, total_weight)
    end in
  if (total_weight > 0)%py then (score / total_weight * 10)%float else 5.0%float.

(** ** The parameter analyzer

    [x = data.get(key)] followed by [if x:] is the [match] on the
    lookup with [py_bool] on the value: a missing key gives [None],
    which is false. *)

Definition _analyze_parameters_basic (data : gmap string float)
  : gmap string ParameterAnalysis :=
  let analysis : gmap string ParameterAnalysis := ∅ in
  (* pH analysis *)
  let analysis :=
    match data !! "ph" with
    | Some ph =>
        if py_bool ph then
          let ph_status := if (6.5 <= ph <= 8.5)%py then "optimal" else "suboptimal" in
          let ph_recommendation :=
            if (ph < 6.5)%py then
              Some "Consider adding limestone or calcium carbonate to increase pH"
            else if (ph > 8.5)%py then
              Some "Consider adding natural acids like peat or driftwood to decrease pH"
            else None in
          <["ph" := mkParameterAnalysis ph ph_status ph_recommendation]> analysis
        else analysis
    | None => analysis
    end in
  (* Temperature analysis *)
  let analysis :=
    match data !! "temperature" with
    | Some temp =>
        if py_bool temp then
          let temp_status := if (20 <= temp <= 30)%py then "optimal" else "suboptimal" in
          let temp_recommendation :=
            if (temp < 20)%py then
              Some "Consider using heaters to increase water temperature"
            else if (temp > 30)%py then
              Some "Consider cooling methods like shade or water exchange"
            else None in
          <["temperature" := mkParameterAnalysis temp temp_status temp_recommendation]> analysis
        else analysis
    | None => analysis
    end in
  (* Turbidity analysis *)
  let analysis :=
    match data !! "turbidity" with
    | Some turbidity =>
        if py_bool turbidity then
          let turbidity_status :=
            if (30 <= turbidity <= 80)%py then "optimal" else "suboptimal" in
          let turbidity_recommendation :=
            if (turbidity < 30)%py then
              Some "Water is very clear, which may indicate low productivity"
            else if (turbidity > 80)%py then
              Some "Water is too cloudy, consider filtration or water exchange"
            else None in
          <["turbidity" :=
              mkParameterAnalysis turbidity turbidity_status turbidity_recommendation]> analysis
        else analysis
    | None => analysis
    end in
  analysis.

Definition _analyze_parameters_advanced (data : gmap string float)
  : gmap string ParameterAnalysis :=
  (* Start with basic analysis *)
  let analysis := _analyze_parameters_basic data in
  (* Dissolved oxygen *)
  let analysis :=
    match data !! "dissolved_oxygen" with
    | Some do_ =>
        if py_bool do_ then
          let do_status := if (5 <= do_ <= 9)%py then "optimal" else "suboptimal" in
          let do_recommendation :=
            if (do_ < 5)%py then
              Some "Low oxygen levels. Consider aeration or reducing fish density"
            else if (do_ > 9)%py then
              Some "High oxygen levels, possibly due to excessive algae growth"
            else None in
          <["dissolved_oxygen" := mkParameterAnalysis do_ do_status do_recommendation]> analysis
        else analysis
    | None => analysis
    end in
  (* Ammonia *)
  let analysis :=
    match data !! "ammonia" with
    | Some ammonia =>
        if py_bool ammonia then
          let ammonia_status := if (ammonia < 0.1)%py then "optimal" else "suboptimal" in
          let ammonia_recommendation :=
            if (ammonia >= 0.1)%py then
              Some "High ammonia levels. Reduce feeding and increase water exchange"
            else None in
          <["ammonia" := mkParameterAnalysis ammonia ammonia_status ammonia_recommendation]>
            analysis
        else analysis
    | None => analysis
    end in
  (* Nitrite *)
  let analysis :=
    match data !! "nitrite" with
    | Some nitrite =>
        if py_bool nitrite then
          let nitrite_status := if (nitrite < 0.05)%py then "optimal" else "suboptimal" in
          let nitrite_recommendation :=
            if (nitrite >= 0.05)%py then
              Some "High nitrite levels. Check biofilter and reduce feeding"
            else None in
          <["nitrite" := mkParameterAnalysis nitrite nitrite_status nitrite_recommendation]>
            analysis
        else analysis
    | None => analysis
    end in
  analysis.

(** ** The species matcher *)

(** The condition of the loop body of [_get_suitable_species_basic];
    it raises [IndexError] when a range that is read has fewer than two
    elements. *)
Definition species_in_range
    (info : FishSpeciesInfo) (ph temperature turbidity : float) : result bool :=
  let ph_range := py_or (ideal_ph_range info) [6.0; 8.5]%float in
  let temp_range := py_or (ideal_temperature_range info) [18.0; 32.0]%float in
  let turbidity_range := py_or (ideal_turbidity_range info) [20.0; 80.0]%float in
  py_and (py_between ph_range ph)
    (py_and (py_between temp_range temperature)
            (py_between turbidity_range turbidity)).

(** [for species_name, info in self.fish_species_info.items(): ...],
    with the list built so far as accumulator. *)
Fixpoint suitable_loop_basic
    (items : list (string * FishSpeciesInfo)) (ph temperature turbidity : float)
    (suitable_species : list string) : result (list string) :=
  match items with
  | [] => Ok suitable_species
  | (species_name, info) :: items =>
      matches ← species_in_range info ph temperature turbidity;
      suitable_loop_basic items ph temperature turbidity
        (if matches : bool then suitable_species ++ [species_name] else suitable_species)
  end.

Definition _get_suitable_species_basic
    (self : PredictionService) (data : gmap string float) : result (list string) :=
  let ph := default 7.0%float (data !! "ph") in
  let temperature := default 25.0%float (data !! "temperature") in
  let turbidity := default 50.0%float (data !! "turbidity") in
  suitable_loop_basic (fish_species_info self) ph temperature turbidity [].

(** The per-species criteria in the loop body of
    [_get_suitable_species_advanced]. *)
Definition advanced_criteria (species : string) (do_ ammonia nitrite : float) : bool :=
  if String.eqb species "Salmon" || String.eqb species "Trout" then
    (* Cold water species need high oxygen *)
    (do_ >= 7.0)%py && (ammonia < 0.05)%py && (nitrite < 0.01)%py
  else if String.eqb species "Tilapia" || String.eqb species "Catfish"
          || String.eqb species "Carp" then
    (* More tolerant species *)
    (do_ >= 4.0)%py
  else
    (* Default case *)
    (do_ >= 5.0)%py && (ammonia < 0.1)%py && (nitrite < 0.05)%py.

Fixpoint suitable_loop_advanced
    (suitable_from_basic : list string) (do_ ammonia nitrite : float)
    (suitable_species : list string) : list string :=
  match suitable_from_basic with
  | [] => suitable_species
  | species :: rest =>
      suitable_loop_advanced rest do_ ammonia nitrite
        (if advanced_criteria species do_ ammonia nitrite
         then suitable_species ++ [species] else suitable_species)
  end.

Definition _get_suitable_species_advanced
    (self : PredictionService) (data : gmap string float) : result (list string) :=
  (* Start with basic parameters check *)
  suitable_from_basic ← _get_suitable_species_basic self data;
  let do_ := default 6.0%float (data !! "dissolved_oxygen") in
  let ammonia := default 0.05%float (data !! "ammonia") in
  let nitrite := default 0.01%float (data !! "nitrite") in
  Ok (suitable_loop_advanced suitable_from_basic do_ ammonia nitrite []).

(** ** The prediction pipeline, basic tier *)

(** The four rules of the fallback, in the order of the [if]/[elif]
    chain of [predict_basic]. *)
Definition rule_tilapia (ph temperature turbidity : float) : bool :=
  (6.5 <= ph <= 7.5)%py && (25 <= temperature <= 30)%py && (30 <= turbidity <= 60)%py.
Definition rule_catfish (ph temperature turbidity : float) : bool :=
  (6.0 <= ph <= 7.0)%py && (24 <= temperature <= 28)%py && (20 <= turbidity <= 50)%py.
Definition rule_carp (ph temperature turbidity : float) : bool :=
  (6.5 <= ph <= 8.0)%py && (20 <= temperature <= 26)%py && (30 <= turbidity <= 70)%py.
Definition rule_trout (ph temperature turbidity : float) : bool :=
  (6.5 <= ph <= 8.0)%py && (10 <= temperature <= 18)%py && (5 <= turbidity <= 25)%py.

(** The [except] branch of [predict_basic]: species and confidence. *)
Definition rule_based_fallback (ph temperature turbidity : float) : string * float :=
  if rule_tilapia ph temperature turbidity then ("Tilapia", 0.85%float)
  else if rule_catfish ph temperature turbidity then ("Catfish", 0.80%float)
  else if rule_carp ph temperature turbidity then ("Carp", 0.75%float)
  else if rule_trout ph temperature turbidity then ("Trout", 0.90%float)
  else ("Tilapia", 0.7%float).

(** The points one parameter adds to the integer [water_quality_score]. *)
Definition ph_points (ph : float) : Z :=
  if (6.5 <= ph <= 8.5)%py then 3 else if (6.0 <= ph <= 9.0)%py then 2 else 1.
Definition temperature_points (temperature : float) : Z :=
  if (22 <= temperature <= 30)%py then 3
  else if (18 <= temperature <= 32)%py then 2 else 1.
Definition turbidity_points (turbidity : float) : Z :=
  if (30 <= turbidity <= 80)%py then 3
  else if (20 <= turbidity <= 100)%py then 2 else 1.

(** The simplified score of [predict_basic]: the three additions to the
    integer, then [(water_quality_score / 9) * 10]. *)
Definition simplified_water_quality_score (ph temperature turbidity : float) : float :=
  let water_quality_score := 0%Z in
  let water_quality_score := (water_quality_score + ph_points ph)%Z in
  let water_quality_score := (water_quality_score + temperature_points temperature)%Z in
  let water_quality_score := (water_quality_score + turbidity_points turbidity)%Z in
  (py_float water_quality_score / 9 * 10)%float.

(** [[self.fish_species_info.get(species, FishSpeciesInfo(name=species))
      for species in suitable_species]] *)
Definition resolve_species (self : PredictionService) (suitable_species : list string)
  : list FishSpeciesInfo :=
  map (fun species =>
         default (FishSpeciesInfo_of_name species)
                 (dict_get (fish_species_info self) species))
      suitable_species.

(** [input_data] of [predict_basic] *)
Definition basic_input_data (data : BasicFishPredictionRequest.t) : gmap string float :=
  <["turbidity" := BasicFishPredictionRequest.turbidity data]>
    (<["temperature" := BasicFishPredictionRequest.temperature data]>
       (<["ph" := BasicFishPredictionRequest.ph data]> ∅)).

Definition predict_basic
    (self : PredictionService) (data : BasicFishPredictionRequest.t)
  : result PredictionResult :=
  let input_data := basic_input_data data in
  let '(predicted_species, confidence) :=
    match predict (basic_model self) input_data with
    | Ok prediction_result => prediction_result
    | Raise e =>
        rule_based_fallback (BasicFishPredictionRequest.ph data)
          (BasicFishPredictionRequest.temperature data)
          (BasicFishPredictionRequest.turbidity data)
    end in
  let water_quality_score :=
    simplified_water_quality_score (BasicFishPredictionRequest.ph data)
      (BasicFishPredictionRequest.temperature data)
      (BasicFishPredictionRequest.turbidity data) in
  let parameter_analysis := _analyze_parameters_basic input_data in
  suitable_species ← _get_suitable_species_basic self input_data;
  Ok (mkPredictionResult predicted_species confidence (Some water_quality_score)
        parameter_analysis (resolve_species self suitable_species)).

(** ** The prediction pipeline, advanced tier *)

(** [input_data] of [predict_advanced] *)
Definition advanced_input_data (data : AdvancedFishPredictionRequest.t)
  : gmap string float :=
  <["plankton" := AdvancedFishPredictionRequest.plankton data]>
  (<["h2s" := AdvancedFishPredictionRequest.h2s data]>
  (<["phosphorus" := AdvancedFishPredictionRequest.phosphorus data]>
  (<["nitrite" := AdvancedFishPredictionRequest.nitrite data]>
  (<["ammonia" := AdvancedFishPredictionRequest.ammonia data]>
  (<["calcium" := AdvancedFishPredictionRequest.calcium data]>
  (<["hardness" := AdvancedFishPredictionRequest.hardness data]>
  (<["alkalinity" := AdvancedFishPredictionRequest.alkalinity data]>
  (<["ph" := AdvancedFishPredictionRequest.ph data]>
  (<["co2" := AdvancedFishPredictionRequest.co2 data]>
  (<["bod" := AdvancedFishPredictionRequest.bod data]>
  (<["dissolved_oxygen" := AdvancedFishPredictionRequest.dissolved_oxygen data]>
  (<["turbidity" := AdvancedFishPredictionRequest.turbidity data]>
  (<["temperature" := AdvancedFishPredictionRequest.temperature data]> ∅))))))))))))).

(** The body of the outer [try] of [predict_advanced], after
    [input_data] is built. *)
Definition predict_advanced_try
    (self : PredictionService) (input_data : gmap string float)
  : result PredictionResult :=
  '(predicted_species, confidence) ← predict (advanced_model self) input_data;
  (* Get water quality score *)
  let water_quality_score : option float :=
    if model (water_quality_model self) then
      match predict_score (water_quality_model self) input_data with
      | Ok score => Some score
      | Raise e => Some (_calculate_water_quality_score input_data)
      end
    else None in
  let parameter_analysis := _analyze_parameters_advanced input_data in
  suitable_species ← _get_suitable_species_advanced self input_data;
  Ok (mkPredictionResult predicted_species confidence water_quality_score
        parameter_analysis (resolve_species self suitable_species)).

(** [BasicFishPredictionRequest(ph=data.ph, temperature=data.temperature,
    turbidity=data.turbidity)] *)
Definition basic_data (data : AdvancedFishPredictionRequest.t)
  : BasicFishPredictionRequest.t :=
  BasicFishPredictionRequest.mk
    (AdvancedFishPredictionRequest.ph data)
    (AdvancedFishPredictionRequest.temperature data)
    (AdvancedFishPredictionRequest.turbidity data).

Definition predict_advanced
    (self : PredictionService) (data : AdvancedFishPredictionRequest.t)
  : result PredictionResult :=
  match predict_advanced_try self (advanced_input_data data) with
  | Ok result => Ok result
  | Raise e =>
      (* Fallback to simpler prediction logic; a failure of the
         fallback is raised again *)
      match predict_basic self (basic_data data) with
      | Ok result => Ok result
      | Raise inner_e => Raise inner_e
      end
  end.

(** ** Definitions used to state the properties *)

(** Rank of a comparable binary64 value: [SFcompare] orders two values
    as the lexicographic order orders their ranks. A NaN has none. *)
Definition SFrank (x : spec_float) : option (Z * Z * Z) :=
  match x with
  | S754_nan => None
  | S754_infinity true => Some (-2, 0, 0)%Z
  | S754_finite true m e => Some (-1, - e, - Z.pos m)%Z
  | S754_zero _ => Some (0, 0, 0)%Z
  | S754_finite false m e => Some (1, e, Z.pos m)%Z
  | S754_infinity false => Some (2, 0, 0)%Z
  end.

Definition lex_le (a b : Z * Z * Z) : Prop :=
  let '(a1, a2, a3) := a in
  let '(b1, b2, b3) := b in
  (a1 < b1 \/ (a1 = b1 /\ (a2 < b2 \/ (a2 = b2 /\ a3 <= b3))))%Z.

(** The rational number a finite binary64 value stands for. *)
Definition float_to_Q (x : float) : option Q :=
  match Prim2SF x with
  | S754_zero _ => Some 0%Q
  | S754_finite s m e =>
      Some (inject_Z (if s then Z.neg m else Z.pos m) * Qpower 2 e)%Q
  | _ => None
  end.

(** [True] when the species satisfies the range condition of the basic
    filter on [data] (the defaults of [_get_suitable_species_basic]
    stand for missing keys). *)
Definition satisfies_basic (data : gmap string float) (info : FishSpeciesInfo) : bool :=
  match species_in_range info
          (default 7.0%float (data !! "ph"))
          (default 25.0%float (data !! "temperature"))
          (default 50.0%float (data !! "turbidity")) with
  | Ok b => b
  | Raise _ => false
  end.

(** The criteria of the advanced filter on [data], with its defaults. *)
Definition satisfies_advanced (data : gmap string float) (species : string) : bool :=
  advanced_criteria species
    (default 6.0%float (data !! "dissolved_oxygen"))
    (default 0.05%float (data !! "ammonia"))
    (default 0.01%float (data !! "nitrite")).

(** The parameters the analyzers look at. *)
Definition basic_parameters : list string := ["ph"; "temperature"; "turbidity"].
Definition advanced_parameters : list string :=
  basic_parameters ++ ["dissolved_oxygen"; "ammonia"; "nitrite"].

(** A model that is down, and a water-quality model that is not
    configured. *)
Definition failing_model : FishPredictionModel :=
  mkFishPredictionModel (fun _ => Raise (ModelError "model not loaded")).
Definition constant_model (species : string) (confidence : float) : FishPredictionModel :=
  mkFishPredictionModel (fun _ => Ok (species, confidence)).
Definition no_water_quality_model : WaterQualityModel :=
  mkWaterQualityModel false (fun _ => Raise (ModelError "model not loaded")).
Definition failing_water_quality_model : WaterQualityModel :=
  mkWaterQualityModel true (fun _ => Raise (ModelError "prediction failed")).

(** A range can be indexed at 0 and 1 after [r or default]: it is
    absent, empty, or has two elements at least. *)
Definition range_indexable (r : option (list float)) : bool :=
  match r with
  | Some [_] => false
  | _ => true
  end.

(** A catalog none of whose ranges stops after one bound. *)
Definition catalog_indexable (catalog : list (string * FishSpeciesInfo)) : Prop :=
  Forall (λ item : string * FishSpeciesInfo,
            range_indexable (ideal_ph_range item.2) = true ∧
            range_indexable (ideal_temperature_range item.2) = true ∧
            range_indexable (ideal_turbidity_range item.2) = true) catalog.

(** A service whose catalog holds a range with one bound only. *)
Definition truncated_range_service : PredictionService :=
  mkPredictionService failing_model failing_model no_water_quality_model
    [("Tilapia", mkFishSpeciesInfo "Tilapia" None (Some [6.5%float]) None None None)].

Definition sample_advanced_request (ph temperature turbidity dissolved_oxygen : float)
  : AdvancedFishPredictionRequest.t :=
  AdvancedFishPredictionRequest.mk temperature turbidity dissolved_oxygen
    2.0 5.0 ph 100.0 120.0 40.0 0.02 0.005 0.1 0.0 3000.0.

(** * Properties *)

(** ** The order of binary64 values *)

Section FloatOrder.

Lemma SFcompare_antisym (x y : spec_float) :
  SFcompare y x = option_map CompOpp (SFcompare x y).
Proof.
  destruct x as [s1|s1| |s1 m1 e1], y as [s2|s2| |s2 m2 e2]; simpl;
    try destruct s1; try destruct s2; simpl; try reflexivity;
    rewrite (Z.compare_antisym e1 e2); destruct (e1 ?= e2)%Z; simpl; try reflexivity;
    rewrite (Pos.compare_cont_antisym m1 m2 Eq); simpl; reflexivity.
Qed.

Lemma SFcompare_total (x y : spec_float) :
  x ≠ S754_nan → y ≠ S754_nan → is_Some (SFcompare x y).
Proof. destruct x, y; simpl; intros; try congruence; eauto. Qed.

Lemma lex_le_trans a b c : lex_le a b → lex_le b c → lex_le a c.
Proof. destruct a as [[??]?], b as [[??]?], c as [[??]?]; simpl; lia. Qed.

Lemma SFleb_rank (x y : spec_float) :
  SFleb x y = true ↔
  ∃ a b, SFrank x = Some a ∧ SFrank y = Some b ∧ lex_le a b.
Proof.
  unfold SFleb.
  destruct x as [s1|s1| |s1 m1 e1], y as [s2|s2| |s2 m2 e2]; simpl;
    try destruct s1; try destruct s2; simpl;
    rewrite ?Pos.compare_cont_spec; simpl;
    try destruct (Z.compare_spec e1 e2); simpl;
    try destruct (Pos.compare_spec m1 m2); simpl;
    (split;
     [ try discriminate; intros _; do 2 eexists;
       (split; [reflexivity | split; [reflexivity | simpl; lia]])
     | intros (a & b & Ha & Hb & Hl); simplify_eq; simpl in Hl;
       try reflexivity; lia ]).
Qed.

Lemma SFleb_trans (x y z : spec_float) :
  SFleb x y = true → SFleb y z = true → SFleb x z = true.
Proof.
  intros Hxy Hyz.
  apply SFleb_rank in Hxy as (a & b & Ha & Hb & Hab).
  apply SFleb_rank in Hyz as (b' & c & Hb' & Hc & Hbc).
  apply SFleb_rank. simplify_eq. exists a, c. eauto using lex_le_trans.
Qed.

Lemma SFltb_negb_SFleb (x y : spec_float) :
  x ≠ S754_nan → y ≠ S754_nan → SFltb x y = negb (SFleb y x).
Proof.
  intros Hx Hy. unfold SFltb, SFleb. rewrite (SFcompare_antisym x y).
  destruct (SFcompare_total x y Hx Hy) as [c ->]. now destruct c.
Qed.

Lemma is_nan_Prim2SF (x : float) : is_nan x = false → Prim2SF x ≠ S754_nan.
Proof.
  unfold is_nan. rewrite FloatAxioms.eqb_spec. intros H Hn. rewrite Hn in H. discriminate.
Qed.

(** [<=] on floats is transitive. *)
Lemma float_leb_trans (x y z : float) :
  (x <= y)%py = true → (y <= z)%py = true → (x <= z)%py = true.
Proof. rewrite !leb_spec. apply SFleb_trans. Qed.

(** Away from NaN, [x < y] is the negation of [y <= x]. *)
Lemma float_ltb_negb_leb (x y : float) :
  is_nan x = false → is_nan y = false → (x < y)%py = negb (y <= x)%py.
Proof.
  intros Hx Hy. rewrite ltb_spec, leb_spec.
  apply SFltb_negb_SFleb; by apply is_nan_Prim2SF.
Qed.

(** Two bounds in the wrong order enclose no value. *)
Lemma float_band_empty (lo hi x : float) :
  (lo <= hi)%py = false → (lo <= x)%py = true → (x <= hi)%py = true → False.
Proof.
  intros Hne H1 H2. rewrite (float_leb_trans _ _ _ H1 H2) in Hne. discriminate.
Qed.

End FloatOrder.

(** ** The species matcher is a filter of the catalog *)

Section Matcher.

Lemma suitable_loop_basic_filter items ph temperature turbidity suitable_species :
  Forall (λ item : string * FishSpeciesInfo,
            ∃ b, species_in_range item.2 ph temperature turbidity = Ok b) items →
  suitable_loop_basic items ph temperature turbidity suitable_species =
  Ok (suitable_species ++
      map fst (List.filter
                 (λ item : string * FishSpeciesInfo,
                    match species_in_range item.2 ph temperature turbidity with
                    | Ok b => b
                    | Raise _ => false
                    end) items)).
Proof.
  intros Hok. revert suitable_species.
  induction Hok as [|[species_name info] items [b Hb] _ IH]; intros suitable_species.
  - simpl. by rewrite app_nil_r.
  - simpl in *. rewrite Hb. simpl. rewrite IH.
    destruct b; simpl; [by rewrite <- app_assoc | done].
Qed.

Lemma suitable_loop_advanced_filter suitable_from_basic do_ ammonia nitrite suitable_species :
  suitable_loop_advanced suitable_from_basic do_ ammonia nitrite suitable_species =
  suitable_species ++
  List.filter (λ species, advanced_criteria species do_ ammonia nitrite) suitable_from_basic.
Proof.
  revert suitable_species.
  induction suitable_from_basic as [|species rest IH]; intros suitable_species; simpl.
  - by rewrite app_nil_r.
  - rewrite IH. destruct (advanced_criteria species do_ ammonia nitrite); simpl;
      [by rewrite <- app_assoc | done].
Qed.

(** No range of the built-in catalog is too short to be indexed. *)
Lemma catalog_ranges_indexable ph temperature turbidity :
  Forall (λ item : string * FishSpeciesInfo,
            ∃ b, species_in_range item.2 ph temperature turbidity = Ok b)
         _initialize_species_info.
Proof.
  unfold _initialize_species_info.
  repeat apply Forall_cons_2; try apply Forall_nil_2;
    unfold species_in_range, py_and, py_between; simpl;
    repeat (match goal with
            | |- context [if ?c then _ else _] => destruct c; simpl
            end); eauto.
Qed.

Lemma catalog_keys :
  map fst _initialize_species_info =
  ["Tilapia"; "Catfish"; "Carp"; "Salmon"; "Trout"; "Shrimp"; "Goldfish"].
Proof. reflexivity. Qed.

Lemma catalog_keys_NoDup : NoDup (map fst _initialize_species_info).
Proof. rewrite catalog_keys. apply (bool_decide_unpack _). by vm_compute. Qed.

Lemma NoDup_map_fst_filter {A B} (f : A * B → bool) (l : list (A * B)) :
  NoDup (map fst l) → NoDup (map fst (List.filter f l)).
Proof.
  induction l as [|x l IH]; simpl; [done|].
  rewrite NoDup_cons. intros [Hx Hl]. destruct (f x); simpl; [|by auto].
  apply NoDup_cons. split; [|by auto].
  intros Hin. apply Hx. apply list_elem_of_fmap in Hin as (y & -> & Hy).
  apply list_elem_of_fmap. exists y. split; [done|].
  apply list_elem_of_In, filter_In in Hy as [Hy _]. by apply list_elem_of_In.
Qed.

Lemma get_suitable_species_basic_init basic advanced water_quality data :
  _get_suitable_species_basic (PredictionService_init basic advanced water_quality) data =
  Ok (map fst (List.filter (λ item : string * FishSpeciesInfo, satisfies_basic data item.2)
                 _initialize_species_info)).
Proof.
  unfold _get_suitable_species_basic, satisfies_basic, PredictionService_init.
  cbn [fish_species_info].
  rewrite suitable_loop_basic_filter by apply catalog_ranges_indexable. done.
Qed.

End Matcher.

Section MatcherClaims.

Lemma filter_map_fst_filter {A B} (f : A * B → bool) (g : A → bool) (l : list (A * B)) :
  List.filter g (map fst (List.filter f l)) =
  map fst (List.filter (λ item, f item && g item.1) l).
Proof.
  induction l as [|x l IH]; simpl; [done|].
  destruct (f x); simpl; [|done]. destruct (g x.1); simpl; by rewrite IH.
Qed.

Lemma get_suitable_species_advanced_filter self data from_basic :
  _get_suitable_species_basic self data = Ok from_basic →
  _get_suitable_species_advanced self data =
  Ok (List.filter (satisfies_advanced data) from_basic).
Proof.
  intros Hbasic. unfold _get_suitable_species_advanced. rewrite Hbasic. simpl.
  by rewrite suitable_loop_advanced_filter.
Qed.

(** With the three defaults, the criteria keep every species but
    Salmon and Trout. *)
Lemma advanced_criteria_defaults species :
  advanced_criteria species 6.0 0.05 0.01 =
  negb (String.eqb species "Salmon" || String.eqb species "Trout").
Proof.
  unfold advanced_criteria.
  destruct (String.eqb species "Salmon" || String.eqb species "Trout"); [reflexivity|].
  destruct (String.eqb species "Tilapia" || String.eqb species "Catfish"
            || String.eqb species "Carp"); reflexivity.
Qed.

(** C6: for every input the basic and the advanced filter return the
    keys of the catalog, in the catalog's order Tilapia, Catfish, Carp,
    Salmon, Trout, Shrimp, Goldfish, restricted to the species that
    satisfy the filter's condition, and neither list has a duplicate. *)
Theorem suitable_species_catalog_order
    basic advanced water_quality (data : gmap string float) :
  let self := PredictionService_init basic advanced water_quality in
  map fst (fish_species_info self) =
    ["Tilapia"; "Catfish"; "Carp"; "Salmon"; "Trout"; "Shrimp"; "Goldfish"] ∧
  ∃ from_basic from_advanced,
    _get_suitable_species_basic self data = Ok from_basic ∧
    from_basic =
      map fst (List.filter (λ item : string * FishSpeciesInfo, satisfies_basic data item.2)
                 (fish_species_info self)) ∧
    NoDup from_basic ∧
    _get_suitable_species_advanced self data = Ok from_advanced ∧
    from_advanced =
      map fst (List.filter
                 (λ item : string * FishSpeciesInfo,
                    satisfies_basic data item.2 && satisfies_advanced data item.1)
                 (fish_species_info self)) ∧
    NoDup from_advanced.
Proof.
  intros self. split; [reflexivity|].
  pose proof (get_suitable_species_basic_init basic advanced water_quality data) as Hbasic.
  fold self in Hbasic.
  eexists _, _. split; [exact Hbasic|]. split; [reflexivity|].
  split; [apply NoDup_map_fst_filter, catalog_keys_NoDup|].
  rewrite (get_suitable_species_advanced_filter _ _ _ Hbasic), filter_map_fst_filter.
  split; [reflexivity|]. split; [reflexivity|].
  apply NoDup_map_fst_filter, catalog_keys_NoDup.
Qed.

(** C2 (as stated, refuted): at ph 7.0, temperature 14.0, turbidity 10.0
    with no dissolved oxygen, ammonia or nitrite given, Salmon and Trout
    pass the basic filter and the advanced filter returns nothing. *)
Lemma absent_values_reject_salmon_and_trout :
  let self := PredictionService_init failing_model failing_model no_water_quality_model in
  let data : gmap string float :=
    <["turbidity" := 10.0%float]> (<["temperature" := 14.0%float]> (<["ph" := 7.0%float]> ∅)) in
  data !! "dissolved_oxygen" = None ∧ data !! "ammonia" = None ∧ data !! "nitrite" = None ∧
  _get_suitable_species_basic self data = Ok ["Salmon"; "Trout"] ∧
  _get_suitable_species_advanced self data = Ok [].
Proof. repeat split; vm_compute; reflexivity. Qed.

(** C2 (amended): when dissolved_oxygen, ammonia and nitrite are all
    absent, the advanced filter returns the basic filter's list without
    Salmon and Trout: every other species that qualifies under the
    basic filter is kept, and Salmon and Trout are always rejected (the
    default dissolved_oxygen 6.0 is below their threshold 7.0). *)
Theorem absent_values_keep_all_but_cold_water_species
    (self : PredictionService) (data : gmap string float) (from_basic : list string) :
  data !! "dissolved_oxygen" = None →
  data !! "ammonia" = None →
  data !! "nitrite" = None →
  _get_suitable_species_basic self data = Ok from_basic →
  ∃ from_advanced,
    _get_suitable_species_advanced self data = Ok from_advanced ∧
    from_advanced =
      List.filter (λ species, negb (String.eqb species "Salmon" || String.eqb species "Trout"))
        from_basic ∧
    (∀ species, species ∈ from_basic → species ≠ "Salmon" → species ≠ "Trout" →
                species ∈ from_advanced) ∧
    ("Salmon" ∉ from_advanced) ∧ ("Trout" ∉ from_advanced).
Proof.
  intros Hdo Hammonia Hnitrite Hbasic.
  eexists. split; [by apply get_suitable_species_advanced_filter|].
  assert (Hfilter : List.filter (satisfies_advanced data) from_basic =
                    List.filter (λ species, negb (String.eqb species "Salmon"
                                                  || String.eqb species "Trout")) from_basic).
  { apply filter_ext. intros species. unfold satisfies_advanced.
    rewrite Hdo, Hammonia, Hnitrite. apply advanced_criteria_defaults. }
  rewrite Hfilter. split; [reflexivity|]. split; [|split].
  - intros species Hin Hsalmon Htrout. apply list_elem_of_In, filter_In.
    split; [by apply list_elem_of_In|].
    apply String.eqb_neq in Hsalmon, Htrout. by rewrite Hsalmon, Htrout.
  - intros Hin. apply list_elem_of_In, filter_In in Hin as [_ Hin]. discriminate.
  - intros Hin. apply list_elem_of_In, filter_In in Hin as [_ Hin]. discriminate.
Qed.

Lemma absent_values_keep_all_but_cold_water_species_witness :
  let self := PredictionService_init failing_model failing_model no_water_quality_model in
  let data : gmap string float :=
    <["turbidity" := 40.0%float]> (<["temperature" := 26.0%float]> (<["ph" := 7.0%float]> ∅)) in
  ∃ from_advanced,
    _get_suitable_species_advanced self data = Ok from_advanced ∧
    from_advanced =
      List.filter (λ species, negb (String.eqb species "Salmon" || String.eqb species "Trout"))
        ["Tilapia"; "Catfish"; "Carp"; "Shrimp"] ∧
    (∀ species, species ∈ ["Tilapia"; "Catfish"; "Carp"; "Shrimp"] →
                species ≠ "Salmon" → species ≠ "Trout" → species ∈ from_advanced) ∧
    ("Salmon" ∉ from_advanced) ∧ ("Trout" ∉ from_advanced).
Proof.
  intros self data.
  apply (absent_values_keep_all_but_cold_water_species self data
           ["Tilapia"; "Catfish"; "Carp"; "Shrimp"]); vm_compute; reflexivity.
Defined.

End MatcherClaims.

(** ** The rules of the basic fallback *)

Section FallbackRules.

(** The temperature band of the Trout rule lies below the bands of the
    other three rules. *)
Lemma trout_temperature_disjoint (lo temperature : float) :
  (lo <= 18)%py = false →
  (10 <= temperature <= 18)%py = true → (lo <= temperature)%py = true → False.
Proof.
  intros Hlo Htrout Hother. apply andb_true_iff in Htrout as [_ Hhi].
  exact (float_band_empty _ _ _ Hlo Hother Hhi).
Qed.

(** C3 (as stated, refuted): at ph 7.0, temperature 26, turbidity 40
    the Tilapia, the Catfish and the Carp rule hold together. *)
Lemma fallback_rules_overlap :
  rule_tilapia 7.0 26 40 = true ∧
  rule_catfish 7.0 26 40 = true ∧
  rule_carp 7.0 26 40 = true.
Proof. repeat split; reflexivity. Qed.

(** C3 (amended): the rules are not mutually exclusive: those of
    Tilapia, Catfish and Carp overlap, and the order of the chain
    decides between them. Only the Trout rule excludes the others:
    whenever it holds, none of the Tilapia, Catfish and Carp rules
    does, and the fallback answers Trout with confidence 0.90. *)
Theorem trout_rule_excludes_the_others (ph temperature turbidity : float) :
  rule_trout ph temperature turbidity = true →
  rule_tilapia ph temperature turbidity = false ∧
  rule_catfish ph temperature turbidity = false ∧
  rule_carp ph temperature turbidity = false ∧
  rule_based_fallback ph temperature turbidity = ("Trout", 0.90%float).
Proof.
  intros Htrout.
  assert (Htemp : (10 <= temperature <= 18)%py = true).
  { unfold rule_trout in Htrout.
    apply andb_true_iff in Htrout as [Htrout _].
    by apply andb_true_iff in Htrout as [_ Htrout]. }
  assert (Htilapia : rule_tilapia ph temperature turbidity = false).
  { apply not_true_is_false. unfold rule_tilapia. intros H.
    apply andb_true_iff in H as [H _]. apply andb_true_iff in H as [_ H].
    apply andb_true_iff in H as [H _].
    by apply (trout_temperature_disjoint 25 temperature). }
  assert (Hcatfish : rule_catfish ph temperature turbidity = false).
  { apply not_true_is_false. unfold rule_catfish. intros H.
    apply andb_true_iff in H as [H _]. apply andb_true_iff in H as [_ H].
    apply andb_true_iff in H as [H _].
    by apply (trout_temperature_disjoint 24 temperature). }
  assert (Hcarp : rule_carp ph temperature turbidity = false).
  { apply not_true_is_false. unfold rule_carp. intros H.
    apply andb_true_iff in H as [H _]. apply andb_true_iff in H as [_ H].
    apply andb_true_iff in H as [H _].
    by apply (trout_temperature_disjoint 20 temperature). }
  repeat split; try done.
  unfold rule_based_fallback. by rewrite Htilapia, Hcatfish, Hcarp, Htrout.
Qed.

Lemma trout_rule_excludes_the_others_witness :
  rule_tilapia 7.0 15 10 = false ∧
  rule_catfish 7.0 15 10 = false ∧
  rule_carp 7.0 15 10 = false ∧
  rule_based_fallback 7.0 15 10 = ("Trout", 0.90%float).
Proof. apply (trout_rule_excludes_the_others 7.0 15 10). reflexivity. Defined.

End FallbackRules.

(** ** The weighted score *)

Section WeightedScore.

(** C7: the weighted score is exactly 10.0 when ph = 7.0 is the only
    one of ph, temperature and dissolved_oxygen in the input (score
    1.5 * 1.0 over total weight 1.5), and exactly 5.0 when none of the
    three is in the input. *)
Theorem weighted_score_ph_only_and_empty (data : gmap string float) :
  data !! "temperature" = None →
  data !! "dissolved_oxygen" = None →
  (data !! "ph" = Some 7.0%float → _calculate_water_quality_score data = 10.0%float) ∧
  (data !! "ph" = None → _calculate_water_quality_score data = 5.0%float).
Proof.
  intros Htemp Hdo. unfold _calculate_water_quality_score.
  rewrite Htemp, Hdo. split; intros ->; reflexivity.
Qed.

Lemma weighted_score_ph_only_and_empty_witness :
  (_calculate_water_quality_score (<["ph" := 7.0%float]> ∅) = 10.0%float) ∧
  (_calculate_water_quality_score (<["turbidity" := 45.0%float]> ∅) = 5.0%float).
Proof.
  split.
  - apply (weighted_score_ph_only_and_empty (<["ph" := 7.0%float]> ∅)); reflexivity.
  - apply (weighted_score_ph_only_and_empty (<["turbidity" := 45.0%float]> ∅)); reflexivity.
Defined.

End WeightedScore.

(** ** The basic tier *)

Section BasicTier.

Variables (basic advanced : FishPredictionModel) (water_quality : WaterQualityModel).

#[local] Abbreviation self := (PredictionService_init basic advanced water_quality).

(** With the built-in catalog [predict_basic] always returns: the
    species and the confidence are the model's, or the fallback's when
    the model raises. *)
Lemma predict_basic_returns (data : BasicFishPredictionRequest.t) :
  ∃ r,
    predict_basic self data = Ok r ∧
    (predicted_species r, confidence r) =
      match predict basic (basic_input_data data) with
      | Ok prediction_result => prediction_result
      | Raise _ =>
          rule_based_fallback (BasicFishPredictionRequest.ph data)
            (BasicFishPredictionRequest.temperature data)
            (BasicFishPredictionRequest.turbidity data)
      end ∧
    water_quality_score r =
      Some (simplified_water_quality_score (BasicFishPredictionRequest.ph data)
              (BasicFishPredictionRequest.temperature data)
              (BasicFishPredictionRequest.turbidity data)) ∧
    parameter_analysis r = _analyze_parameters_basic (basic_input_data data).
Proof.
  unfold predict_basic. rewrite get_suitable_species_basic_init.
  cbn [basic_model PredictionService_init].
  destruct (match predict basic (basic_input_data data) with
            | Ok prediction_result => prediction_result
            | Raise _ => _
            end) as [species c].
  eexists. split; [reflexivity|]. done.
Qed.

Lemma points_range (ph temperature turbidity : float) :
  (ph_points ph ∈ [1; 2; 3]%Z) ∧ (temperature_points temperature ∈ [1; 2; 3]%Z) ∧
  (turbidity_points turbidity ∈ [1; 2; 3]%Z).
Proof.
  unfold ph_points, temperature_points, turbidity_points.
  repeat split; repeat case_match; set_solver.
Qed.

(** The simplified score takes one of seven values. *)
Lemma simplified_score_values (ph temperature turbidity : float) :
  simplified_water_quality_score ph temperature turbidity ∈
  [ 3.333333333333333; 4.4444444444444446; 5.5555555555555554; 6.6666666666666661;
    7.7777777777777777; 8.8888888888888893; 10.0 ]%float.
Proof.
  unfold simplified_water_quality_score.
  destruct (points_range ph temperature turbidity) as (Hph & Htemp & Hturb).
  set_unfold.
  destruct Hph as [->|[->|[->|[]]]], Htemp as [->|[->|[->|[]]]],
    Hturb as [->|[->|[->|[]]]]; vm_compute; tauto.
Qed.

Lemma fallback_confidence_values (ph temperature turbidity : float) :
  (rule_based_fallback ph temperature turbidity).2 ∈ [0.85; 0.80; 0.75; 0.90; 0.7]%float.
Proof. unfold rule_based_fallback. repeat case_match; simpl; set_solver. Qed.

(** C5 (amended): on every basic-tier input [predict_basic] returns a
    result whose water_quality_score lies in [0,10]. When the model
    fails and the rules are used, the confidence is one of 0.85, 0.80,
    0.75, 0.90 and 0.7 and so lies in [0,1]. When the model answers,
    the species and the confidence of the result are the model's own,
    passed on as they are: the confidence lies in [0,1] exactly when
    the model's does. *)
Theorem predict_basic_ranges (data : BasicFishPredictionRequest.t) :
  ∃ r score,
    predict_basic self data = Ok r ∧
    water_quality_score r = Some score ∧
    (0 <= score <= 10)%py = true ∧
    (∀ e, predict basic (basic_input_data data) = Raise e →
          confidence r ∈ [0.85; 0.80; 0.75; 0.90; 0.7]%float ∧
          (0 <= confidence r <= 1)%py = true) ∧
    (∀ species c, predict basic (basic_input_data data) = Ok (species, c) →
                  predicted_species r = species ∧ confidence r = c ∧
                  (0 <= confidence r <= 1)%py = (0 <= c <= 1)%py).
Proof.
  destruct (predict_basic_returns data) as (r & Hr & Hpair & Hscore & _).
  exists r, (simplified_water_quality_score (BasicFishPredictionRequest.ph data)
               (BasicFishPredictionRequest.temperature data)
               (BasicFishPredictionRequest.turbidity data)).
  split; [exact Hr|]. split; [exact Hscore|]. split; [|split].
  - pose proof (simplified_score_values (BasicFishPredictionRequest.ph data)
                  (BasicFishPredictionRequest.temperature data)
                  (BasicFishPredictionRequest.turbidity data)) as Hin.
    set_unfold. destruct Hin as [->|[->|[->|[->|[->|[->|[->|[]]]]]]]]; reflexivity.
  - intros e He. rewrite He in Hpair.
    replace (confidence r) with (predicted_species r, confidence r).2 by done.
    rewrite Hpair.
    pose proof (fallback_confidence_values (BasicFishPredictionRequest.ph data)
                  (BasicFishPredictionRequest.temperature data)
                  (BasicFishPredictionRequest.turbidity data)) as Hin.
    split; [exact Hin|].
    set_unfold. destruct Hin as [->|[->|[->|[->|[->|[]]]]]]; reflexivity.
  - intros species c Hmodel. rewrite Hmodel in Hpair.
    injection Hpair as -> ->. done.
Qed.

(** C9 (amended): on every basic-tier input each of the three
    parameters adds at least 1 of 3 points, and the simplified score of
    [predict_basic] is one of the seven values [(k / 9) * 10], k from 3
    to 9, as binary64 arithmetic evaluates them; it lies between
    [(3 / 9) * 10 = 3.333333333333333] (one unit in the last place below
    10/3) and 10, a tighter range than [0,10]. *)
Theorem simplified_score_range (data : BasicFishPredictionRequest.t) :
  ∃ r score points,
    predict_basic self data = Ok r ∧
    water_quality_score r = Some score ∧
    (3 ≤ points ≤ 9)%Z ∧
    score = (py_float points / 9 * 10)%float ∧
    score ∈ [ 3.333333333333333; 4.4444444444444446; 5.5555555555555554;
              6.6666666666666661; 7.7777777777777777; 8.8888888888888893;
              10.0 ]%float ∧
    (3.333333333333333 <= score <= 10)%py = true ∧
    (py_float 3 / 9 * 10)%float = 3.333333333333333%float.
Proof.
  destruct (predict_basic_returns data) as (r & Hr & _ & Hscore & _).
  exists r. eexists.
  exists (ph_points (BasicFishPredictionRequest.ph data)
          + temperature_points (BasicFishPredictionRequest.temperature data)
          + turbidity_points (BasicFishPredictionRequest.turbidity data))%Z.
  split; [exact Hr|]. split; [exact Hscore|].
  pose proof (simplified_score_values (BasicFishPredictionRequest.ph data)
                (BasicFishPredictionRequest.temperature data)
                (BasicFishPredictionRequest.turbidity data)) as Hin.
  split.
  { destruct (points_range (BasicFishPredictionRequest.ph data)
                (BasicFishPredictionRequest.temperature data)
                (BasicFishPredictionRequest.turbidity data)) as (Hph & Htemp & Hturb).
    set_unfold. lia. }
  split; [reflexivity|]. split; [exact Hin|]. split; [|reflexivity].
  set_unfold. destruct Hin as [->|[->|[->|[->|[->|[->|[->|[]]]]]]]]; reflexivity.
Qed.

End BasicTier.

(** C9 (as stated, refuted): at ph 5.0, temperature 40.0, turbidity
    150.0 each parameter adds one point and the score is
    [(3 / 9) * 10], which binary64 arithmetic evaluates to
    3.333333333333333: below [10 / 3] as a float and as a number. *)
Lemma simplified_score_below_ten_thirds :
  ∃ r q,
    predict_basic (PredictionService_init failing_model failing_model no_water_quality_model)
      (BasicFishPredictionRequest.mk 5.0 40.0 150.0) = Ok r ∧
    water_quality_score r = Some 3.333333333333333%float ∧
    (10 / 3 <=? 3.333333333333333)%float = false ∧
    float_to_Q 3.333333333333333%float = Some q ∧
    (q < 10 # 3)%Q.
Proof.
  destruct (predict_basic_returns failing_model failing_model no_water_quality_model
              (BasicFishPredictionRequest.mk 5.0 40.0 150.0)) as (r & Hr & _ & Hscore & _).
  exists r. eexists. split; [exact Hr|]. split; [exact Hscore|].
  split; [reflexivity|]. split; [vm_compute; reflexivity|]. reflexivity.
Qed.

(** C5 (as stated, refuted): a basic model that answers with the
    confidence 1.5 gets it back in the result of [predict_basic]. *)
Lemma model_confidence_is_not_clamped :
  ∃ r,
    predict_basic
      (PredictionService_init (constant_model "Carp" 1.5) failing_model no_water_quality_model)
      (BasicFishPredictionRequest.mk 7.0 27.0 45.0) = Ok r ∧
    predicted_species r = "Carp" ∧
    confidence r = 1.5%float ∧
    (0 <= confidence r <= 1)%py = false.
Proof.
  destruct (predict_basic_returns (constant_model "Carp" 1.5) failing_model
              no_water_quality_model (BasicFishPredictionRequest.mk 7.0 27.0 45.0))
    as (r & Hr & Hpair & _ & _).
  simpl in Hpair. injection Hpair as Hspecies Hconfidence.
  exists r. split; [exact Hr|]. split; [exact Hspecies|]. split; [exact Hconfidence|].
  by rewrite Hconfidence.
Qed.

(** ** The parameter analyzer *)

Section Analyzer.

(** One block of the analyzers: the entry for [key] is added when the
    value is there and true. *)
Lemma analysis_block_lookup
    (o : option float) (f : float → ParameterAnalysis) (key k : string)
    (m : gmap string ParameterAnalysis) :
  match o with
  | Some x => if py_bool x then <[key := f x]> m else m
  | None => m
  end !! k =
  if decide (key = k) then
    match o with
    | Some x => if py_bool x then Some (f x) else m !! k
    | None => m !! k
    end
  else m !! k.
Proof.
  destruct o as [x|]; [destruct (py_bool x)|]; case_decide; subst;
    by rewrite ?lookup_insert_eq, ?lookup_insert_ne.
Qed.

Lemma analysis_block_forall
    (P : ParameterAnalysis → Prop) (o : option float) (f : float → ParameterAnalysis)
    (key : string) (m : gmap string ParameterAnalysis) :
  (∀ x, P (f x)) →
  map_Forall (λ _, P) m →
  map_Forall (λ _, P)
    match o with
    | Some x => if py_bool x then <[key := f x]> m else m
    | None => m
    end.
Proof.
  intros Hf Hm. destruct o as [x|]; [destruct (py_bool x)|]; try done.
  by apply map_Forall_insert_2.
Qed.

(** A record agrees with itself when its recommendation is there
    exactly for the status suboptimal. *)
Lemma two_sided_record_agrees (lo hi v : float) (below above : string) :
  is_nan lo = false → is_nan hi = false → is_nan v = false →
  (if (v < lo)%py then Some below else if (v > hi)%py then Some above else None) ≠ None ↔
  (if (lo <= v <= hi)%py then "optimal" else "suboptimal") = "suboptimal".
Proof.
  intros Hlo Hhi Hv.
  rewrite (float_ltb_negb_leb v lo Hv Hlo), (float_ltb_negb_leb hi v Hhi Hv).
  destruct (lo <= v)%py, (v <= hi)%py; simpl; split; congruence.
Qed.

Lemma one_sided_record_agrees (limit v : float) (above : string) :
  is_nan limit = false → is_nan v = false →
  (if (v >= limit)%py then Some above else None) ≠ None ↔
  (if (v < limit)%py then "optimal" else "suboptimal") = "suboptimal".
Proof.
  intros Hlimit Hv. rewrite (float_ltb_negb_leb v limit Hv Hlimit).
  destruct (limit <= v)%py; simpl; split; congruence.
Qed.

Lemma analysis_basic_agrees (data : gmap string float) :
  map_Forall
    (λ _ r, is_nan (value r) = false →
            recommendation r ≠ None ↔ status r = "suboptimal")
    (_analyze_parameters_basic data).
Proof.
  cbv beta zeta delta [_analyze_parameters_basic].
  repeat (apply analysis_block_forall;
          [intros x Hx; simpl in *; by apply two_sided_record_agrees|]).
  apply map_Forall_empty.
Qed.

Lemma analysis_advanced_agrees (data : gmap string float) :
  map_Forall
    (λ _ r, is_nan (value r) = false →
            recommendation r ≠ None ↔ status r = "suboptimal")
    (_analyze_parameters_advanced data).
Proof.
  cbv beta zeta delta [_analyze_parameters_advanced].
  do 2 (apply analysis_block_forall;
        [intros x Hx; simpl in *; by apply one_sided_record_agrees|]).
  apply analysis_block_forall;
    [intros x Hx; simpl in *; by apply two_sided_record_agrees|].
  apply analysis_basic_agrees.
Qed.

(** C10 (as stated, refuted): a NaN value is true, fails every
    comparison, and so gets the status suboptimal with no
    recommendation. *)
Lemma nan_suboptimal_without_recommendation :
  _analyze_parameters_basic (<["ph" := nan]> ∅) !! "ph" =
    Some (mkParameterAnalysis nan "suboptimal" None) ∧
  _analyze_parameters_advanced (<["ammonia" := nan]> ∅) !! "ammonia" =
    Some (mkParameterAnalysis nan "suboptimal" None).
Proof. split; vm_compute; reflexivity. Qed.

(** C10 (amended): in every record the basic or the advanced analyzer
    returns for a value that is not a NaN, the recommendation is
    non-null exactly when the status is suboptimal. *)
Theorem recommendation_iff_suboptimal
    (data : gmap string float) (k : string) (r : ParameterAnalysis) :
  _analyze_parameters_basic data !! k = Some r ∨
  _analyze_parameters_advanced data !! k = Some r →
  is_nan (value r) = false →
  recommendation r ≠ None ↔ status r = "suboptimal".
Proof.
  intros [Hr|Hr].
  - exact (analysis_basic_agrees data k r Hr).
  - exact (analysis_advanced_agrees data k r Hr).
Qed.

Lemma recommendation_iff_suboptimal_witness :
  Some "Consider adding natural acids like peat or driftwood to decrease pH" ≠ None ↔
  "suboptimal" = "suboptimal".
Proof.
  apply (recommendation_iff_suboptimal (<["ph" := 9.0%float]> ∅) "ph"
           (mkParameterAnalysis 9.0 "suboptimal"
              (Some "Consider adding natural acids like peat or driftwood to decrease pH"))).
  - left. vm_compute. reflexivity.
  - reflexivity.
Defined.

(** Reading one key of an analysis: the blocks for the other keys are
    skipped, the block for the key is entered. *)
Ltac analysis_lookup :=
  repeat (rewrite analysis_block_lookup; case_decide; [try discriminate | try done]).

Ltac status_cases :=
  match goal with
  | |- context [if ?c then _ else _] => destruct c; set_solver
  end.

Lemma analysis_basic_lookup_other (data : gmap string float) (k : string) :
  k ∉ basic_parameters → _analyze_parameters_basic data !! k = None.
Proof.
  intros Hk. cbv beta zeta delta [_analyze_parameters_basic].
  repeat (rewrite analysis_block_lookup; case_decide;
          [exfalso; apply Hk; subst k; unfold basic_parameters; set_solver|]).
  apply lookup_empty.
Qed.

Lemma py_bool_zero (v : float) : py_bool v = negb (v =? 0)%float.
Proof. reflexivity. Qed.

Lemma analysis_basic_entry (data : gmap string float) (k : string) (v : float) :
  k ∈ basic_parameters → data !! k = Some v →
  ((v =? 0)%float = true → _analyze_parameters_basic data !! k = None) ∧
  ((v =? 0)%float = false →
   ∃ r, _analyze_parameters_basic data !! k = Some r ∧ value r = v ∧
        status r ∈ ["optimal"; "suboptimal"]).
Proof.
  intros Hk Hv. unfold basic_parameters in Hk. set_unfold.
  cbv beta zeta delta [_analyze_parameters_basic].
  destruct Hk as [->|[->|[->|[]]]]; analysis_lookup;
    rewrite Hv, py_bool_zero;
    (split; intros Hzero; rewrite Hzero; simpl;
     [by analysis_lookup | eexists; split; [reflexivity|]; simpl; split; [reflexivity|]; status_cases]).
Qed.

Lemma analysis_advanced_entry (data : gmap string float) (k : string) (v : float) :
  k ∈ advanced_parameters → data !! k = Some v →
  ((v =? 0)%float = true → _analyze_parameters_advanced data !! k = None) ∧
  ((v =? 0)%float = false →
   ∃ r, _analyze_parameters_advanced data !! k = Some r ∧ value r = v ∧
        status r ∈ ["optimal"; "suboptimal"]).
Proof.
  intros Hk Hv. unfold advanced_parameters in Hk.
  apply elem_of_app in Hk as [Hk|Hk].
  - assert (Hsame : _analyze_parameters_advanced data !! k =
                    _analyze_parameters_basic data !! k).
    { cbv beta zeta delta [_analyze_parameters_advanced].
      unfold basic_parameters in Hk. set_unfold.
      destruct Hk as [->|[->|[->|[]]]]; by analysis_lookup. }
    rewrite Hsame. by apply analysis_basic_entry.
  - set_unfold. cbv beta zeta delta [_analyze_parameters_advanced].
    destruct Hk as [->|[->|[->|[]]]]; analysis_lookup;
      rewrite Hv, py_bool_zero;
      (split; intros Hzero; rewrite Hzero; simpl;
       [ analysis_lookup; apply analysis_basic_lookup_other;
         apply (bool_decide_unpack _); vm_compute; exact I
       | eexists; split; [reflexivity|]; simpl; split; [reflexivity|]; status_cases ]).
Qed.

(** C8: a recognized parameter whose value is exactly 0 (or -0.0) gets
    no entry in the analysis, of the basic as of the advanced analyzer;
    a recognized parameter with any other value gets an entry that
    carries the value and a status, optimal or suboptimal. The basic
    analyzer recognizes ph, temperature and turbidity, the advanced one
    also dissolved_oxygen, ammonia and nitrite. *)
Theorem zero_is_absent (data : gmap string float) (k : string) (v : float) :
  k ∈ advanced_parameters → data !! k = Some v →
  ((v =? 0)%float = true →
   _analyze_parameters_basic data !! k = None ∧
   _analyze_parameters_advanced data !! k = None) ∧
  ((v =? 0)%float = false →
   (∃ r, _analyze_parameters_advanced data !! k = Some r ∧ value r = v ∧
         status r ∈ ["optimal"; "suboptimal"]) ∧
   (k ∈ basic_parameters →
    ∃ r, _analyze_parameters_basic data !! k = Some r ∧ value r = v ∧
         status r ∈ ["optimal"; "suboptimal"])).
Proof.
  intros Hk Hv.
  destruct (analysis_advanced_entry data k v Hk Hv) as [Hzero Hnonzero].
  split.
  - intros Hv0. split; [|by apply Hzero].
    destruct (decide (k ∈ basic_parameters)) as [Hb|Hb].
    + by apply (analysis_basic_entry data k v Hb Hv).
    + by apply analysis_basic_lookup_other.
  - intros Hv0. split; [by apply Hnonzero|].
    intros Hb. by apply (analysis_basic_entry data k v Hb Hv).
Qed.

Lemma zero_is_absent_witness :
  let data : gmap string float :=
    <["nitrite" := 0.02%float]> (<["turbidity" := 45.0%float]> (<["ph" := 0.0%float]> ∅)) in
  (_analyze_parameters_basic data !! "ph" = None ∧
   _analyze_parameters_advanced data !! "ph" = None) ∧
  (∃ r, _analyze_parameters_advanced data !! "turbidity" = Some r ∧ value r = 45.0%float ∧
        status r ∈ ["optimal"; "suboptimal"]) ∧
  (∃ r, _analyze_parameters_advanced data !! "nitrite" = Some r ∧ value r = 0.02%float ∧
        status r ∈ ["optimal"; "suboptimal"]).
Proof.
  intros data. split; [|split].
  - apply (zero_is_absent data "ph" 0.0%float);
      [apply (bool_decide_unpack _); vm_compute; exact I | reflexivity | reflexivity].
  - refine (proj1 (proj2 (zero_is_absent data "turbidity" 45.0%float _ _) _));
      [apply (bool_decide_unpack _); vm_compute; exact I | reflexivity | reflexivity].
  - refine (proj1 (proj2 (zero_is_absent data "nitrite" 0.02%float _ _) _));
      [apply (bool_decide_unpack _); vm_compute; exact I | reflexivity | reflexivity].
Defined.

End Analyzer.

(** ** The advanced tier *)

Section AdvancedTier.

Variables (basic advanced : FishPredictionModel) (water_quality : WaterQualityModel).

#[local] Abbreviation self := (PredictionService_init basic advanced water_quality).

(** With the built-in catalog, [predict_advanced] returns the outcome
    of its [try] block whenever the advanced model answers. *)
Lemma predict_advanced_returns
    (data : AdvancedFishPredictionRequest.t) (species : string) (c : float) :
  predict advanced (advanced_input_data data) = Ok (species, c) →
  ∃ r,
    predict_advanced self data = Ok r ∧
    predicted_species r = species ∧
    confidence r = c ∧
    water_quality_score r =
      (if model water_quality then
         match predict_score water_quality (advanced_input_data data) with
         | Ok score => Some score
         | Raise _ => Some (_calculate_water_quality_score (advanced_input_data data))
         end
       else None) ∧
    parameter_analysis r = _analyze_parameters_advanced (advanced_input_data data).
Proof.
  intros Hmodel. unfold predict_advanced, predict_advanced_try.
  cbn [advanced_model water_quality_model PredictionService_init].
  rewrite Hmodel.
  rewrite (get_suitable_species_advanced_filter _ _ _
             (get_suitable_species_basic_init basic advanced water_quality _)).
  eexists. split; [reflexivity|]. done.
Qed.

(** C1 (amended): when the advanced species model answers, the
    water_quality_score of [predict_advanced] is the weighted fallback
    value of [_calculate_water_quality_score] on the input if the
    water-quality model is configured and its predict call fails, the
    model's own score if the call succeeds, and is absent (None) if the
    water-quality model is not configured. *)
Theorem water_quality_score_of_predict_advanced
    (data : AdvancedFishPredictionRequest.t) (species : string) (c : float) :
  predict advanced (advanced_input_data data) = Ok (species, c) →
  ∃ r,
    predict_advanced self data = Ok r ∧
    (model water_quality = true →
     (∀ e, predict_score water_quality (advanced_input_data data) = Raise e →
           water_quality_score r =
             Some (_calculate_water_quality_score (advanced_input_data data))) ∧
     (∀ score, predict_score water_quality (advanced_input_data data) = Ok score →
               water_quality_score r = Some score)) ∧
    (model water_quality = false → water_quality_score r = None).
Proof.
  intros Hmodel.
  destruct (predict_advanced_returns data species c Hmodel) as (r & Hr & _ & _ & Hscore & _).
  exists r. split; [exact Hr|]. rewrite Hscore. split.
  - intros ->. split; [intros e He | intros score He]; by rewrite He.
  - by intros ->.
Qed.

End AdvancedTier.

(** C1 (as stated, refuted): with the advanced model answering and no
    water-quality model configured, the water_quality_score is absent,
    where the weighted fallback would give 10.0. *)
Lemma unconfigured_water_quality_model_gives_no_score :
  let self :=
    PredictionService_init failing_model (constant_model "Tilapia" 0.9) no_water_quality_model in
  let data := sample_advanced_request 7.0 26.0 40.0 6.5 in
  model (water_quality_model self) = false ∧
  _calculate_water_quality_score (advanced_input_data data) = 10.0%float ∧
  ∃ r, predict_advanced self data = Ok r ∧
       predicted_species r = "Tilapia" ∧
       water_quality_score r = None.
Proof.
  intros self data. split; [reflexivity|]. split; [vm_compute; reflexivity|].
  destruct (predict_advanced_returns failing_model (constant_model "Tilapia" 0.9)
              no_water_quality_model data "Tilapia" 0.9 eq_refl)
    as (r & Hr & Hspecies & _ & Hscore & _).
  exists r. split; [exact Hr|]. split; [exact Hspecies|exact Hscore].
Qed.

Lemma water_quality_score_of_predict_advanced_witness :
  let data := sample_advanced_request 7.0 26.0 40.0 6.5 in
  ∃ r,
    predict_advanced
      (PredictionService_init failing_model (constant_model "Tilapia" 0.9)
         failing_water_quality_model) data = Ok r ∧
    (model failing_water_quality_model = true →
     (∀ e, predict_score failing_water_quality_model (advanced_input_data data) = Raise e →
           water_quality_score r =
             Some (_calculate_water_quality_score (advanced_input_data data))) ∧
     (∀ score, predict_score failing_water_quality_model (advanced_input_data data) = Ok score →
               water_quality_score r = Some score)) ∧
    (model failing_water_quality_model = false → water_quality_score r = None).
Proof.
  intros data.
  apply (water_quality_score_of_predict_advanced failing_model (constant_model "Tilapia" 0.9)
           failing_water_quality_model data "Tilapia" 0.9).
  reflexivity.
Defined.

(** C4: when the advanced model call fails, [predict_advanced] returns
    what [predict_basic] returns on the request built from ph,
    temperature and turbidity alone, whatever the other eleven
    parameters are; and when that call of [predict_basic] fails, its
    failure is the failure of [predict_advanced]. *)
Theorem advanced_failure_delegates_to_basic
    (self : PredictionService) (data : AdvancedFishPredictionRequest.t) (e : exn) :
  predict (advanced_model self) (advanced_input_data data) = Raise e →
  predict_advanced self data = predict_basic self (basic_data data) ∧
  basic_data data =
    BasicFishPredictionRequest.mk (AdvancedFishPredictionRequest.ph data)
      (AdvancedFishPredictionRequest.temperature data)
      (AdvancedFishPredictionRequest.turbidity data) ∧
  (∀ inner_e, predict_basic self (basic_data data) = Raise inner_e →
              predict_advanced self data = Raise inner_e).
Proof.
  intros Hmodel.
  assert (Hsame : predict_advanced self data = predict_basic self (basic_data data)).
  { unfold predict_advanced, predict_advanced_try. rewrite Hmodel. simpl.
    by destruct (predict_basic self (basic_data data)). }
  split; [exact Hsame|]. split; [reflexivity|].
  intros inner_e Hinner. by rewrite Hsame.
Qed.

Lemma advanced_failure_delegates_to_basic_witness :
  let data := sample_advanced_request 7.0 26.0 40.0 6.5 in
  predict_advanced
    (PredictionService_init failing_model failing_model no_water_quality_model) data =
  predict_basic
    (PredictionService_init failing_model failing_model no_water_quality_model)
    (BasicFishPredictionRequest.mk 7.0 26.0 40.0) ∧
  predict_advanced truncated_range_service data = Raise IndexError.
Proof.
  intros data. split.
  - apply (advanced_failure_delegates_to_basic
             (PredictionService_init failing_model failing_model no_water_quality_model)
             data (ModelError "model not loaded")).
    reflexivity.
  - apply (advanced_failure_delegates_to_basic truncated_range_service data
             (ModelError "model not loaded")).
    + reflexivity.
    + vm_compute. reflexivity.
Defined.

(** ** The worked cases of the specification *)

Section WorkedCases.

#[local] Abbreviation rules_only :=
  (PredictionService_init failing_model failing_model no_water_quality_model).

Example simplified_score_best : simplified_water_quality_score 7.0 26.0 50.0 = 10.0%float.
Proof. reflexivity. Qed.

Example simplified_score_worst :
  simplified_water_quality_score 5.0 40.0 150.0 = 3.333333333333333%float.
Proof. reflexivity. Qed.

Example fallback_first_rule : rule_based_fallback 7.0 27.0 45.0 = ("Tilapia", 0.85%float).
Proof. reflexivity. Qed.

Example fallback_default : rule_based_fallback 9.5 5.0 200.0 = ("Tilapia", 0.7%float).
Proof. reflexivity. Qed.

Example analysis_of_high_ph :
  _analyze_parameters_basic (<["ph" := 9.0%float]> ∅) !! "ph" =
  Some (mkParameterAnalysis 9.0 "suboptimal"
          (Some "Consider adding natural acids like peat or driftwood to decrease pH")).
Proof. vm_compute. reflexivity. Qed.

Example salmon_needs_oxygen :
  let data : gmap string float :=
    <["dissolved_oxygen" := 5.0%float]>
      (<["turbidity" := 10.0%float]> (<["temperature" := 14.0%float]> (<["ph" := 7.0%float]> ∅))) in
  _get_suitable_species_basic rules_only data = Ok ["Salmon"; "Trout"] ∧
  _get_suitable_species_advanced rules_only data = Ok [].
Proof. split; vm_compute; reflexivity. Qed.

Example cold_water_species_with_good_water :
  let data : gmap string float :=
    <["nitrite" := 0.005%float]>
      (<["ammonia" := 0.02%float]>
         (<["dissolved_oxygen" := 8.0%float]>
            (<["turbidity" := 10.0%float]>
               (<["temperature" := 14.0%float]> (<["ph" := 7.0%float]> ∅))))) in
  _get_suitable_species_advanced rules_only data = Ok ["Salmon"; "Trout"].
Proof. vm_compute. reflexivity. Qed.

Example weighted_score_three_terms :
  _calculate_water_quality_score
    (<["dissolved_oxygen" := 5.0%float]>
       (<["temperature" := 40.0%float]> (<["ph" := 7.0%float]> ∅))) =
  ((0 + 1.5 * 1.0 + 1.0 * 0.3 + 2.0 * 0.7) / (0 + 1.5 + 1.0 + 2.0) * 10)%float.
Proof. vm_compute. reflexivity. Qed.

Example truncated_range_raises :
  predict_basic truncated_range_service (BasicFishPredictionRequest.mk 7.0 26.0 40.0) =
  Raise IndexError.
Proof. vm_compute. reflexivity. Qed.

End WorkedCases.

(** * Further properties of the service *)

(** ** More on the order of binary64 values *)

Section FloatOrderFacts.

Lemma SFcompare_refl (x : spec_float) : x ≠ S754_nan → SFcompare x x = Some Eq.
Proof.
  destruct x as [s|s| |s m e]; simpl; try done; intros _; destruct s; try done;
    by rewrite Z.compare_refl, Pos.compare_cont_refl.
Qed.

Lemma Prim2SF_is_nan (x : float) : is_nan x = true → Prim2SF x = S754_nan.
Proof.
  unfold is_nan. rewrite FloatAxioms.eqb_spec. unfold SFeqb. intros H.
  destruct (Prim2SF x) as [s|s| |s m e] eqn:Hx; try done;
    by rewrite SFcompare_refl in H.
Qed.

Lemma Prim2SF_not_nan (x : float) : Prim2SF x ≠ S754_nan → is_nan x = false.
Proof.
  intros Hx. unfold is_nan. rewrite FloatAxioms.eqb_spec. unfold SFeqb.
  by rewrite (SFcompare_refl _ Hx).
Qed.

(** A comparison that holds has no NaN operand. *)
Lemma float_leb_not_nan (x y : float) :
  (x <= y)%py = true → is_nan x = false ∧ is_nan y = false.
Proof.
  rewrite leb_spec. unfold SFleb. intros H.
  split; apply Prim2SF_not_nan; intros Hn; rewrite Hn in H;
    [done | by destruct (Prim2SF x)].
Qed.

Lemma float_ltb_not_nan (x y : float) :
  (x < y)%py = true → is_nan x = false ∧ is_nan y = false.
Proof.
  rewrite ltb_spec. unfold SFltb. intros H.
  split; apply Prim2SF_not_nan; intros Hn; rewrite Hn in H;
    [done | by destruct (Prim2SF x)].
Qed.

(** Every comparison with a NaN fails. *)
Lemma float_nan_leb (x a : float) :
  is_nan x = true → (a <= x)%py = false ∧ (x <= a)%py = false.
Proof.
  intros Hx. apply Prim2SF_is_nan in Hx. rewrite !leb_spec, Hx. unfold SFleb.
  split; [by destruct (Prim2SF a) | done].
Qed.

Lemma float_ltb_leb_trans (x a b : float) :
  (x < a)%py = true → (a <= b)%py = true → (x < b)%py = true.
Proof.
  intros Hxa Hab.
  destruct (float_ltb_not_nan _ _ Hxa) as [Hx Ha].
  destruct (float_leb_not_nan _ _ Hab) as [_ Hb].
  rewrite (float_ltb_negb_leb x b Hx Hb).
  rewrite (float_ltb_negb_leb x a Hx Ha) in Hxa.
  destruct (b <= x)%py eqn:Hbx; [|done].
  by rewrite (float_leb_trans _ _ _ Hab Hbx) in Hxa.
Qed.

(** A float equal to zero is below every positive bound. *)
Lemma float_zero_below (x c : float) :
  (x =? 0)%float = true → (0 < c)%py = true → (c <= x)%py = false.
Proof.
  rewrite FloatAxioms.eqb_spec, ltb_spec, leb_spec.
  change (Prim2SF 0) with (S754_zero false).
  unfold SFeqb, SFltb, SFleb.
  destruct (Prim2SF x) as [s|s| |s m e], (Prim2SF c) as [s'|s'| |s' m' e']; simpl;
    try destruct s; try destruct s'; simpl; done.
Qed.

(** Inside a band that does not reach down to zero the value is true
    in [if x:]. *)
Lemma float_band_true (lo hi x : float) :
  (0 < lo)%py = true → (lo <= x <= hi)%py = true → py_bool x = true.
Proof.
  intros Hlo Hband. apply andb_true_iff in Hband as [Hx _].
  unfold py_bool. destruct (x =? 0)%float eqn:Hzero; [|done].
  by rewrite (float_zero_below x lo Hzero Hlo) in Hx.
Qed.

(** A band inside another. *)
Lemma float_band_widen (lo hi lo' hi' x : float) :
  (lo' <= lo)%py = true → (hi <= hi')%py = true →
  (lo <= x <= hi)%py = true → (lo' <= x <= hi')%py = true.
Proof.
  intros Hlo Hhi Hband. apply andb_true_iff in Hband as [H1 H2].
  apply andb_true_iff. split; eauto using float_leb_trans.
Qed.

(** Inside a band neither strict comparison against its bounds holds. *)
Lemma float_band_not_outside (lo hi x : float) :
  (lo <= x <= hi)%py = true → (x < lo)%py = false ∧ (x > hi)%py = false.
Proof.
  intros Hband. apply andb_true_iff in Hband as [H1 H2].
  destruct (float_leb_not_nan _ _ H1) as [Hlo Hx].
  destruct (float_leb_not_nan _ _ H2) as [_ Hhi].
  rewrite (float_ltb_negb_leb x lo Hx Hlo), (float_ltb_negb_leb hi x Hhi Hx).
  by rewrite H1, H2.
Qed.

End FloatOrderFacts.

(** ** Failures of the two tiers *)

Section Failures.




Lemma py_between_indexable (r : option (list float)) (d0 d1 x : float) :
  range_indexable r = true → ∃ b, py_between (py_or r [d0; d1]) x = Ok b.
Proof.
  unfold py_between, py_index.
  destruct r as [[|lo [|hi r]]|]; simpl; try done; intros _.
  - destruct (d0 <= x)%py; eauto.
  - destruct (lo <= x)%py; eauto.
  - destruct (d0 <= x)%py; eauto.
Qed.

Lemma species_in_range_indexable info ph temperature turbidity :
  range_indexable (ideal_ph_range info) = true →
  range_indexable (ideal_temperature_range info) = true →
  range_indexable (ideal_turbidity_range info) = true →
  ∃ b, species_in_range info ph temperature turbidity = Ok b.
Proof.
  intros Hph Htemp Hturb. unfold species_in_range, py_and.
  destruct (py_between_indexable _ 6.0 8.5 ph Hph) as [b1 ->].
  destruct (py_between_indexable _ 18.0 32.0 temperature Htemp) as [b2 ->].
  destruct (py_between_indexable _ 20.0 80.0 turbidity Hturb) as [b3 ->].
  simpl. destruct b1, b2; simpl; eauto.
Qed.

(** The advanced tier reads the same three values for the basic filter
    as the basic tier does on the request it falls back to. *)
Lemma get_suitable_species_basic_same_inputs
    (self : PredictionService) (data : AdvancedFishPredictionRequest.t) :
  _get_suitable_species_basic self (advanced_input_data data) =
  _get_suitable_species_basic self (basic_input_data (basic_data data)).
Proof. reflexivity. Qed.

Lemma predict_basic_raises_iff
    (self : PredictionService) (data : BasicFishPredictionRequest.t) (e : exn) :
  predict_basic self data = Raise e ↔
  _get_suitable_species_basic self (basic_input_data data) = Raise e.
Proof.
  unfold predict_basic.
  destruct (match predict (basic_model self) (basic_input_data data) with
            | Ok prediction_result => prediction_result
            | Raise _ => _
            end) as [species c].
  destruct (_get_suitable_species_basic self (basic_input_data data)); simpl; split; congruence.
Qed.


Lemma predict_advanced_raises_iff
    (self : PredictionService) (data : AdvancedFishPredictionRequest.t) (e : exn) :
  predict_advanced self data = Raise e ↔ predict_basic self (basic_data data) = Raise e.
Proof.
  unfold predict_advanced.
  destruct (predict_advanced_try self (advanced_input_data data)) as [r|e'] eqn:Htry.
  - split; [done|]. intros Hb. exfalso.
    apply predict_basic_raises_iff in Hb.
    rewrite <- get_suitable_species_basic_same_inputs in Hb.
    unfold predict_advanced_try, _get_suitable_species_advanced in Htry.
    rewrite Hb in Htry.
    destruct (predict (advanced_model self) (advanced_input_data data)) as [[species c]|];
      simpl in Htry; discriminate.
  - by destruct (predict_basic self (basic_data data)).
Qed.

(** X2: when each call of a model returns or raises an [Exception],
    [predict_advanced] raises an [Exception] on a request exactly when
    [predict_basic] raises one on its ph, temperature and turbidity,
    and it is the same one. *)
Theorem advanced_fails_iff_basic_fails
    (self : PredictionService) (data : AdvancedFishPredictionRequest.t) (e : exn) :
  predict_advanced self data = Raise e ↔ predict_basic self (basic_data data) = Raise e.
Proof. apply predict_advanced_raises_iff. Qed.

Lemma get_suitable_species_basic_indexable
    (self : PredictionService) (data : gmap string float) :
  catalog_indexable (fish_species_info self) →
  ∃ l, _get_suitable_species_basic self data = Ok l.
Proof.
  intros Hcatalog. unfold _get_suitable_species_basic.
  rewrite suitable_loop_basic_filter; [by eexists|].
  eapply Forall_impl; [exact Hcatalog|].
  intros item (Hph & Htemp & Hturb). by apply species_in_range_indexable.
Qed.

(** X3: when no range of the catalog stops after one bound, both
    tiers return a result on every request, whether the calls of the
    models return or raise an [Exception]. *)
Theorem indexable_catalog_never_fails (self : PredictionService) :
  catalog_indexable (fish_species_info self) →
  (∀ data, ∃ r, predict_basic self data = Ok r) ∧
  (∀ data, ∃ r, predict_advanced self data = Ok r).
Proof.
  intros Hcatalog.
  assert (Hfilter : ∀ data, ∃ l, _get_suitable_species_basic self data = Ok l).
  { intros data. unfold _get_suitable_species_basic.
    rewrite suitable_loop_basic_filter; [by eexists|].
    eapply Forall_impl; [exact Hcatalog|].
    intros item (Hph & Htemp & Hturb). by apply species_in_range_indexable. }
  assert (Hbasic : ∀ data, ∃ r, predict_basic self data = Ok r).
  { intros data. destruct (predict_basic self data) as [r|e] eqn:Hr; [by eexists|].
    apply predict_basic_raises_iff in Hr.
    destruct (Hfilter (basic_input_data data)) as [l Hl]. congruence. }
  split; [exact Hbasic|].
  intros data. destruct (predict_advanced self data) as [r|e] eqn:Hr; [by eexists|].
  apply predict_advanced_raises_iff in Hr.
  destruct (Hbasic (basic_data data)) as [r Hr']. congruence.
Qed.

Lemma indexable_catalog_never_fails_witness :
  let self := PredictionService_init failing_model failing_model failing_water_quality_model in
  (∀ data, ∃ r, predict_basic self data = Ok r) ∧
  (∀ data, ∃ r, predict_advanced self data = Ok r).
Proof.
  intros self. apply (indexable_catalog_never_fails self).
  unfold catalog_indexable. simpl. repeat constructor.
Defined.

End Failures.

(** ** More on the species matcher *)

Section MatcherFacts.

Lemma filter_sublist {A} (f : A → bool) (l : list A) : sublist (List.filter f l) l.
Proof.
  induction l as [|x l IH]; simpl; [constructor|].
  destruct (f x); by constructor.
Qed.

Lemma suitable_loop_basic_sublist items ph temperature turbidity suitable_species l :
  suitable_loop_basic items ph temperature turbidity suitable_species = Ok l →
  ∃ picked, l = suitable_species ++ picked ∧ sublist picked (map fst items).
Proof.
  revert suitable_species.
  induction items as [|[species_name info] items IH]; intros suitable_species; simpl.
  - intros [= <-]. exists []. by rewrite app_nil_r.
  - destruct (species_in_range info ph temperature turbidity) as [[|]|]; simpl; [| |done];
      intros H; apply IH in H as (picked & -> & Hsub).
    + exists (species_name :: picked). rewrite <- app_assoc. split; [done|].
      by constructor.
    + exists picked. split; [done|]. by constructor.
Qed.

(** X4: for any catalog, the list of the basic filter is a
    subsequence of the catalog's keys and the list of the advanced
    filter is a subsequence of the basic filter's list: the advanced
    filter adds no species and changes no order. *)
Theorem filters_are_subsequences
    (self : PredictionService) (data : gmap string float)
    (from_basic from_advanced : list string) :
  _get_suitable_species_basic self data = Ok from_basic →
  _get_suitable_species_advanced self data = Ok from_advanced →
  sublist from_basic (map fst (fish_species_info self)) ∧
  sublist from_advanced from_basic.
Proof.
  intros Hbasic Hadvanced.
  rewrite (get_suitable_species_advanced_filter _ _ _ Hbasic) in Hadvanced.
  injection Hadvanced as <-.
  split; [|apply filter_sublist].
  unfold _get_suitable_species_basic in Hbasic.
  by apply suitable_loop_basic_sublist in Hbasic as (picked & -> & Hsub).
Qed.

Lemma filters_are_subsequences_witness :
  let self := PredictionService_init failing_model failing_model no_water_quality_model in
  sublist ["Tilapia"; "Catfish"; "Carp"; "Shrimp"] (map fst (fish_species_info self)) ∧
  sublist ["Tilapia"; "Catfish"; "Carp"] ["Tilapia"; "Catfish"; "Carp"; "Shrimp"].
Proof.
  intros self.
  apply (filters_are_subsequences self
           (<["nitrite" := 0.2%float]>
              (<["turbidity" := 40.0%float]>
                 (<["temperature" := 26.0%float]> (<["ph" := 7.0%float]> ∅)))));
    vm_compute; reflexivity.
Defined.

(** A key the filter returns has an entry in the catalog. *)
Lemma dict_get_key catalog (species : string) :
  species ∈ map fst catalog → ∃ info, dict_get catalog species = Some info ∧
                                      info ∈ map snd catalog.
Proof.
  induction catalog as [|[k v] catalog IH]; simpl.
  - by intros ?%elem_of_nil.
  - intros Hin. destruct (String.eqb k species) eqn:Hk.
    + exists v. split; [done|]. apply list_elem_of_here.
    + apply elem_of_cons in Hin as [->|Hin].
      * by rewrite String.eqb_refl in Hk.
      * destruct (IH Hin) as (info & Hget & Hinfo).
        exists info. split; [done|]. by apply list_elem_of_further.
Qed.

Lemma resolve_species_catalog (self : PredictionService) (l : list string) :
  l ⊆ map fst (fish_species_info self) →
  Forall (λ info, info ∈ map snd (fish_species_info self)) (resolve_species self l).
Proof.
  intros Hl. unfold resolve_species. apply Forall_fmap, Forall_forall.
  intros species Hin. simpl.
  destruct (dict_get_key _ species (Hl _ Hin)) as (info & -> & Hinfo). done.
Qed.

Lemma predict_basic_suitable (self : PredictionService) data r :
  predict_basic self data = Ok r →
  ∃ l, _get_suitable_species_basic self (basic_input_data data) = Ok l ∧
       suitable_species r = resolve_species self l.
Proof.
  unfold predict_basic.
  destruct (match predict (basic_model self) (basic_input_data data) with
            | Ok prediction_result => prediction_result
            | Raise _ => _
            end) as [species c].
  destruct (_get_suitable_species_basic self (basic_input_data data)) as [l|]; simpl;
    [|done].
  intros [= <-]. by exists l.
Qed.

Lemma predict_advanced_try_suitable (self : PredictionService) input_data r :
  predict_advanced_try self input_data = Ok r →
  ∃ l, _get_suitable_species_advanced self input_data = Ok l ∧
       suitable_species r = resolve_species self l.
Proof.
  unfold predict_advanced_try.
  destruct (predict (advanced_model self) input_data) as [[species c]|]; simpl; [|done].
  destruct (_get_suitable_species_advanced self input_data) as [l|]; simpl; [|done].
  intros [= <-]. by exists l.
Qed.

(** X5: every entry of suitable_species in a result of either tier is
    an entry of the catalog: the substitute [FishSpeciesInfo(name=species)]
    of the lookup is never used, whatever the catalog. *)
Theorem suitable_species_come_from_catalog (self : PredictionService) :
  (∀ data r, predict_basic self data = Ok r →
             Forall (λ info, info ∈ map snd (fish_species_info self)) (suitable_species r)) ∧
  (∀ data r, predict_advanced self data = Ok r →
             Forall (λ info, info ∈ map snd (fish_species_info self)) (suitable_species r)).
Proof.
  assert (Hbasic : ∀ data r, predict_basic self data = Ok r →
            Forall (λ info, info ∈ map snd (fish_species_info self)) (suitable_species r)).
  { intros data r (l & Hl & ->)%predict_basic_suitable.
    apply resolve_species_catalog.
    unfold _get_suitable_species_basic in Hl.
    apply suitable_loop_basic_sublist in Hl as (picked & -> & Hsub).
    intros species Hin. by eapply elem_of_sublist. }
  split; [exact Hbasic|].
  intros data r. unfold predict_advanced.
  destruct (predict_advanced_try self (advanced_input_data data)) as [r'|] eqn:Htry.
  - intros [= <-]. apply predict_advanced_try_suitable in Htry as (l & Hl & ->).
    apply resolve_species_catalog.
    unfold _get_suitable_species_advanced in Hl.
    destruct (_get_suitable_species_basic self (advanced_input_data data)) as [lb|] eqn:Hlb;
      simpl in Hl; [|done].
    injection Hl as <-. rewrite suitable_loop_advanced_filter. simpl.
    unfold _get_suitable_species_basic in Hlb.
    apply suitable_loop_basic_sublist in Hlb as (picked & -> & Hsub).
    intros species Hin. eapply elem_of_sublist; [|exact Hsub].
    simpl. eapply elem_of_sublist; [exact Hin|apply filter_sublist].
  - destruct (predict_basic self (basic_data data)) as [r'|] eqn:Hb; [|done].
    intros [= <-]. by apply (Hbasic _ _ Hb).
Qed.

End MatcherFacts.

(** ** The thresholds of the advanced filter *)

Section AdvancedThresholds.

(** The criteria of Salmon and Trout are the strictest: values that
    meet them meet the criteria of every species. *)
Lemma cold_water_criteria_strictest (species : string) (do_ ammonia nitrite : float) :
  advanced_criteria "Salmon" do_ ammonia nitrite = true →
  advanced_criteria species do_ ammonia nitrite = true.
Proof.
  intros H. change ((do_ >= 7.0)%py && (ammonia < 0.05)%py && (nitrite < 0.01)%py = true) in H.
  apply andb_true_iff in H as [H Hnitrite]. apply andb_true_iff in H as [Hdo Hammonia].
  assert (H4 : (do_ >= 4.0)%py = true) by (by apply (float_leb_trans 4.0 7.0 do_)).
  assert (H5 : (do_ >= 5.0)%py = true) by (by apply (float_leb_trans 5.0 7.0 do_)).
  assert (Ha : (ammonia < 0.1)%py = true) by (by apply (float_ltb_leb_trans ammonia 0.05 0.1)).
  assert (Hn : (nitrite < 0.05)%py = true) by (by apply (float_ltb_leb_trans nitrite 0.01 0.05)).
  unfold advanced_criteria. rewrite Hdo, Hammonia, Hnitrite, H4, H5, Ha, Hn.
  by repeat case_match.
Qed.

(** Below 4.0 of dissolved oxygen no species meets its criteria. *)
Lemma low_oxygen_criteria (species : string) (do_ ammonia nitrite : float) :
  (do_ >= 4.0)%py = false → advanced_criteria species do_ ammonia nitrite = false.
Proof.
  intros H4.
  assert (H5 : (do_ >= 5.0)%py = false).
  { apply not_true_is_false. intros H. by rewrite (float_leb_trans 4.0 5.0 do_) in H4. }
  assert (H7 : (do_ >= 7.0)%py = false).
  { apply not_true_is_false. intros H. by rewrite (float_leb_trans 4.0 7.0 do_) in H4. }
  unfold advanced_criteria. rewrite H4, H5, H7. by repeat case_match.
Qed.

Lemma filter_all {A} (f : A → bool) (l : list A) :
  (∀ x, f x = true) → List.filter f l = l.
Proof. intros Hf. induction l as [|x l IH]; simpl; [done|]. by rewrite Hf, IH. Qed.

Lemma filter_none {A} (f : A → bool) (l : list A) :
  (∀ x, f x = false) → List.filter f l = [].
Proof. intros Hf. induction l as [|x l IH]; simpl; [done|]. by rewrite Hf. Qed.

Lemma cold_criteria_keep_all
    (self : PredictionService) (data : gmap string float) (from_basic : list string) :
  satisfies_advanced data "Salmon" = true →
  _get_suitable_species_basic self data = Ok from_basic →
  _get_suitable_species_advanced self data = Ok from_basic.
Proof.
  intros Hcold Hbasic. rewrite (get_suitable_species_advanced_filter _ _ _ Hbasic).
  rewrite filter_all; [done|].
  intros species. by apply cold_water_criteria_strictest.
Qed.

(** X6: when the values used for dissolved oxygen, ammonia and nitrite
    meet the criteria of Salmon and Trout (dissolved_oxygen >= 7.0,
    ammonia < 0.05, nitrite < 0.01), the advanced filter rejects
    nothing: it returns the list of the basic filter. *)
Theorem clean_water_keeps_every_species
    (self : PredictionService) (data : gmap string float) (from_basic : list string) :
  satisfies_advanced data "Salmon" = true →
  _get_suitable_species_basic self data = Ok from_basic →
  _get_suitable_species_advanced self data = Ok from_basic.
Proof. apply cold_criteria_keep_all. Qed.

Lemma clean_water_keeps_every_species_witness :
  _get_suitable_species_advanced
    (PredictionService_init failing_model failing_model no_water_quality_model)
    (<["nitrite" := 0.005%float]>
       (<["ammonia" := 0.02%float]>
          (<["dissolved_oxygen" := 8.0%float]>
             (<["turbidity" := 40.0%float]>
                (<["temperature" := 26.0%float]> (<["ph" := 7.0%float]> ∅)))))) =
  Ok ["Tilapia"; "Catfish"; "Carp"; "Shrimp"].
Proof.
  apply clean_water_keeps_every_species; vm_compute; reflexivity.
Defined.

(** X7: when Salmon or Trout is in the list of the advanced filter,
    that list is the whole list of the basic filter. *)
Theorem cold_water_species_imply_all_kept
    (self : PredictionService) (data : gmap string float)
    (from_basic from_advanced : list string) :
  _get_suitable_species_basic self data = Ok from_basic →
  _get_suitable_species_advanced self data = Ok from_advanced →
  "Salmon" ∈ from_advanced ∨ "Trout" ∈ from_advanced →
  from_advanced = from_basic.
Proof.
  intros Hbasic Hadvanced Hin.
  assert (Hcold : satisfies_advanced data "Salmon" = true).
  { rewrite (get_suitable_species_advanced_filter _ _ _ Hbasic) in Hadvanced.
    injection Hadvanced as <-.
    destruct Hin as [Hin|Hin]; apply list_elem_of_In, filter_In in Hin as [_ Hin];
      exact Hin. }
  rewrite (cold_criteria_keep_all self data from_basic Hcold Hbasic) in Hadvanced.
  by injection Hadvanced.
Qed.

Lemma cold_water_species_imply_all_kept_witness :
  ["Salmon"; "Trout"] = ["Salmon"; "Trout"].
Proof.
  apply (cold_water_species_imply_all_kept
           (PredictionService_init failing_model failing_model no_water_quality_model)
           (<["nitrite" := 0.005%float]>
              (<["ammonia" := 0.02%float]>
                 (<["dissolved_oxygen" := 8.0%float]>
                    (<["turbidity" := 10.0%float]>
                       (<["temperature" := 14.0%float]> (<["ph" := 7.0%float]> ∅))))))).
  - vm_compute. reflexivity.
  - vm_compute. reflexivity.
  - left. apply (bool_decide_unpack _). vm_compute. exact I.
Defined.

(** X8: when the dissolved oxygen given is not at least 4.0 (a NaN
    included), the advanced filter keeps no species: it returns the
    empty list whenever the basic filter it starts from returns,
    whatever the other values are, and raises what the basic filter
    raises otherwise. The basic filter returns whenever no range of the
    catalog stops after one bound, as in the built-in catalog. *)
Theorem low_oxygen_rejects_every_species
    (self : PredictionService) (data : gmap string float) (do_ : float) :
  data !! "dissolved_oxygen" = Some do_ →
  (do_ >= 4.0)%py = false →
  _get_suitable_species_advanced self data =
    match _get_suitable_species_basic self data with
    | Ok _ => Ok []
    | Raise e => Raise e
    end ∧
  (catalog_indexable (fish_species_info self) →
   _get_suitable_species_advanced self data = Ok []).
Proof.
  intros Hdo Hlow.
  assert (Hnone : ∀ from_basic,
            _get_suitable_species_basic self data = Ok from_basic →
            _get_suitable_species_advanced self data = Ok []).
  { intros from_basic Hbasic.
    rewrite (get_suitable_species_advanced_filter _ _ _ Hbasic).
    rewrite filter_none; [done|].
    intros species. unfold satisfies_advanced. rewrite Hdo. simpl.
    by apply low_oxygen_criteria. }
  split.
  - destruct (_get_suitable_species_basic self data) as [from_basic|e] eqn:Hbasic.
    + by apply (Hnone from_basic).
    + unfold _get_suitable_species_advanced. by rewrite Hbasic.
  - intros Hcatalog. destruct (get_suitable_species_basic_indexable self data Hcatalog)
      as [from_basic Hbasic].
    by apply (Hnone from_basic).
Qed.

Lemma low_oxygen_rejects_every_species_witness :
  let data : gmap string float :=
    <["dissolved_oxygen" := 3.9%float]>
      (<["turbidity" := 40.0%float]>
         (<["temperature" := 26.0%float]> (<["ph" := 7.0%float]> ∅))) in
  _get_suitable_species_basic
    (PredictionService_init failing_model failing_model no_water_quality_model) data =
    Ok ["Tilapia"; "Catfish"; "Carp"; "Shrimp"] ∧
  _get_suitable_species_advanced
    (PredictionService_init failing_model failing_model no_water_quality_model) data = Ok [] ∧
  _get_suitable_species_advanced truncated_range_service data = Raise IndexError.
Proof.
  intros data. split; [vm_compute; reflexivity|]. split.
  - apply (low_oxygen_rejects_every_species
             (PredictionService_init failing_model failing_model no_water_quality_model)
             data 3.9%float).
    + reflexivity.
    + reflexivity.
    + unfold catalog_indexable. simpl. repeat constructor.
  - exact (proj1 (low_oxygen_rejects_every_species truncated_range_service data 3.9%float
                    eq_refl eq_refl)).
Defined.

End AdvancedThresholds.

(** ** The built-in catalog in the results *)

Section BuiltInCatalog.

Variables (basic advanced : FishPredictionModel) (water_quality : WaterQualityModel).

#[local] Abbreviation self := (PredictionService_init basic advanced water_quality).

Lemma py_between_two (lo hi x : float) :
  py_between [lo; hi] x = Ok ((lo <= x <= hi)%py).
Proof. unfold py_between, py_index. simpl. by destruct (lo <= x)%py. Qed.

Lemma species_in_range_two n sn (a b c d e f : float) de (ph temperature turbidity : float) :
  species_in_range (mkFishSpeciesInfo n sn (Some [a; b]) (Some [c; d]) (Some [e; f]) de)
    ph temperature turbidity =
  Ok ((a <= ph <= b)%py && ((c <= temperature <= d)%py && (e <= turbidity <= f)%py)).
Proof.
  unfold species_in_range, py_and. simpl. rewrite !py_between_two. simpl.
  by destruct (a <= ph <= b)%py, (c <= temperature <= d)%py.
Qed.

(** Resolving names against the built-in catalog gives records that
    carry these names. *)
Lemma resolved_name (species : string) :
  name (default (FishSpeciesInfo_of_name species)
          (dict_get _initialize_species_info species)) = species.
Proof.
  unfold _initialize_species_info. cbn [dict_get].
  repeat match goal with
         | |- context [String.eqb ?k species] =>
             let H := fresh "H" in
             destruct (String.eqb k species) eqn:H;
             [apply String.eqb_eq in H; by subst species|]
         end.
  done.
Qed.

Lemma resolve_species_names (l : list string) : map name (resolve_species self l) = l.
Proof.
  unfold resolve_species, PredictionService_init. cbn [fish_species_info].
  induction l as [|species l IH]; [done|].
  cbn [map]. by rewrite resolved_name, IH.
Qed.

Lemma satisfies_basic_selected (data : gmap string float) key info :
  (key, info) ∈ _initialize_species_info →
  satisfies_basic data info = true →
  key ∈ map fst (List.filter (λ item : string * FishSpeciesInfo, satisfies_basic data item.2)
                   _initialize_species_info).
Proof.
  intros Hin Hsat. apply list_elem_of_fmap. exists (key, info). split; [done|].
  apply list_elem_of_In, filter_In. split; [by apply list_elem_of_In|done].
Qed.

(** X9: with the built-in catalog, the names of the suitable_species
    of a result of [predict_basic] are the species the basic filter
    selected: catalog keys in catalog order, each at most once. *)
Theorem predict_basic_suitable_names (data : BasicFishPredictionRequest.t) :
  ∃ r,
    predict_basic self data = Ok r ∧
    map name (suitable_species r) =
      map fst (List.filter
                 (λ item : string * FishSpeciesInfo,
                    satisfies_basic (basic_input_data data) item.2)
                 _initialize_species_info) ∧
    NoDup (map name (suitable_species r)) ∧
    sublist (map name (suitable_species r))
      ["Tilapia"; "Catfish"; "Carp"; "Salmon"; "Trout"; "Shrimp"; "Goldfish"].
Proof.
  destruct (predict_basic self data) as [r|e] eqn:Hr.
  - exists r. split; [done|].
    apply predict_basic_suitable in Hr as (l & Hl & ->).
    rewrite get_suitable_species_basic_init in Hl.
    rewrite resolve_species_names.
    replace l with
      (map fst (List.filter
                  (λ item : string * FishSpeciesInfo,
                     satisfies_basic (basic_input_data data) item.2)
                  _initialize_species_info)) by congruence.
    clear Hl. split; [reflexivity|]. split.
    + apply NoDup_map_fst_filter, catalog_keys_NoDup.
    + rewrite <- catalog_keys. clear.
      induction _initialize_species_info as [|x l IH]; simpl; [constructor|].
      destruct (satisfies_basic _ _); simpl; by constructor.
  - apply predict_basic_raises_iff in Hr.
    rewrite get_suitable_species_basic_init in Hr. done.
Qed.

End BuiltInCatalog.

(** ** The fallback rules against the species matcher *)

Section FallbackAndMatcher.

Variables (basic advanced : FishPredictionModel) (water_quality : WaterQualityModel).

#[local] Abbreviation self := (PredictionService_init basic advanced water_quality).

Lemma satisfies_basic_input (data : BasicFishPredictionRequest.t) info :
  satisfies_basic (basic_input_data data) info =
  match species_in_range info (BasicFishPredictionRequest.ph data)
          (BasicFishPredictionRequest.temperature data)
          (BasicFishPredictionRequest.turbidity data) with
  | Ok b => b
  | Raise _ => false
  end.
Proof. reflexivity. Qed.

Lemma bands_hold (a b c d e f a' b' c' d' e' f' x y z : float) :
  (a' <= a)%py = true → (b <= b')%py = true →
  (c' <= c)%py = true → (d <= d')%py = true →
  (e' <= e)%py = true → (f <= f')%py = true →
  (a <= x <= b)%py && (c <= y <= d)%py && (e <= z <= f)%py = true →
  (a' <= x <= b')%py && ((c' <= y <= d')%py && (e' <= z <= f')%py) = true.
Proof.
  intros Ha Hb Hc Hd He Hf H.
  apply andb_true_iff in H as [H Hz]. apply andb_true_iff in H as [Hx Hy].
  rewrite (float_band_widen a b a' b' x Ha Hb Hx).
  rewrite (float_band_widen c d c' d' y Hc Hd Hy).
  by rewrite (float_band_widen e f e' f' z He Hf Hz).
Qed.

Ltac closed_elem := apply (bool_decide_unpack _); vm_compute; exact I.

Ltac rule_selects i :=
  eapply satisfies_basic_selected;
  [ apply list_elem_of_lookup; by exists i
  | rewrite satisfies_basic_input, species_in_range_two;
    eapply bands_hold; [..|eassumption]; reflexivity ].

Lemma tilapia_rule_selected (data : BasicFishPredictionRequest.t) :
  rule_tilapia (BasicFishPredictionRequest.ph data)
    (BasicFishPredictionRequest.temperature data)
    (BasicFishPredictionRequest.turbidity data) = true →
  "Tilapia" ∈ map fst (List.filter
                         (λ item : string * FishSpeciesInfo,
                            satisfies_basic (basic_input_data data) item.2)
                         _initialize_species_info).
Proof. unfold rule_tilapia. intros H. rule_selects 0%nat. Qed.

Lemma catfish_rule_selected (data : BasicFishPredictionRequest.t) :
  rule_catfish (BasicFishPredictionRequest.ph data)
    (BasicFishPredictionRequest.temperature data)
    (BasicFishPredictionRequest.turbidity data) = true →
  "Catfish" ∈ map fst (List.filter
                         (λ item : string * FishSpeciesInfo,
                            satisfies_basic (basic_input_data data) item.2)
                         _initialize_species_info).
Proof. unfold rule_catfish. intros H. rule_selects 1%nat. Qed.

Lemma carp_rule_selected (data : BasicFishPredictionRequest.t) :
  rule_carp (BasicFishPredictionRequest.ph data)
    (BasicFishPredictionRequest.temperature data)
    (BasicFishPredictionRequest.turbidity data) = true →
  "Carp" ∈ map fst (List.filter
                      (λ item : string * FishSpeciesInfo,
                         satisfies_basic (basic_input_data data) item.2)
                      _initialize_species_info).
Proof. unfold rule_carp. intros H. rule_selects 2%nat. Qed.

(** X10: when the basic model fails, the species [predict_basic]
    predicts is Tilapia, Catfish, Carp or Trout, never Salmon, Shrimp
    or Goldfish; and when one of the Tilapia, Catfish and Carp rules
    holds, the predicted species is among the suitable_species of the
    same result. *)
Theorem fallback_prediction_is_suitable (data : BasicFishPredictionRequest.t) (e : exn) :
  predict basic (basic_input_data data) = Raise e →
  ∃ r,
    predict_basic self data = Ok r ∧
    predicted_species r ∈ ["Tilapia"; "Catfish"; "Carp"; "Trout"] ∧
    (rule_tilapia (BasicFishPredictionRequest.ph data)
       (BasicFishPredictionRequest.temperature data)
       (BasicFishPredictionRequest.turbidity data) = true ∨
     rule_catfish (BasicFishPredictionRequest.ph data)
       (BasicFishPredictionRequest.temperature data)
       (BasicFishPredictionRequest.turbidity data) = true ∨
     rule_carp (BasicFishPredictionRequest.ph data)
       (BasicFishPredictionRequest.temperature data)
       (BasicFishPredictionRequest.turbidity data) = true →
     predicted_species r ∈ map name (suitable_species r)).
Proof.
  intros Hmodel.
  destruct (predict_basic_returns basic advanced water_quality data)
    as (r & Hr & Hpair & _ & _).
  rewrite Hmodel in Hpair.
  assert (Hspecies : predicted_species r =
                     (rule_based_fallback (BasicFishPredictionRequest.ph data)
                        (BasicFishPredictionRequest.temperature data)
                        (BasicFishPredictionRequest.turbidity data)).1)
    by (by rewrite <- Hpair).
  exists r. split; [exact Hr|].
  pose proof (predict_basic_suitable _ _ _ Hr) as (l & Hl & Hsuitable).
  rewrite get_suitable_species_basic_init in Hl.
  rewrite Hsuitable, resolve_species_names, Hspecies.
  replace l with
    (map fst (List.filter
                (λ item : string * FishSpeciesInfo,
                   satisfies_basic (basic_input_data data) item.2)
                _initialize_species_info)) by congruence.
  clear Hl Hsuitable Hspecies Hpair Hr.
  pose proof (tilapia_rule_selected data) as Htilapia.
  pose proof (catfish_rule_selected data) as Hcatfish.
  pose proof (carp_rule_selected data) as Hcarp.
  unfold rule_based_fallback.
  destruct (rule_tilapia _ _ _); [split; [closed_elem|auto]|].
  destruct (rule_catfish _ _ _); [split; [closed_elem|auto]|].
  destruct (rule_carp _ _ _); [split; [closed_elem|auto]|].
  split; [destruct (rule_trout _ _ _); closed_elem|].
  intros [?|[?|?]]; discriminate.
Qed.

End FallbackAndMatcher.

Lemma fallback_prediction_is_suitable_witness :
  ∃ r,
    predict_basic (PredictionService_init failing_model failing_model no_water_quality_model)
      (BasicFishPredictionRequest.mk 6.2 26.0 40.0) = Ok r ∧
    predicted_species r ∈ ["Tilapia"; "Catfish"; "Carp"; "Trout"] ∧
    (rule_tilapia 6.2 26.0 40.0 = true ∨ rule_catfish 6.2 26.0 40.0 = true ∨
     rule_carp 6.2 26.0 40.0 = true →
     predicted_species r ∈ map name (suitable_species r)).
Proof.
  apply (fallback_prediction_is_suitable failing_model failing_model no_water_quality_model
           (BasicFishPredictionRequest.mk 6.2 26.0 40.0) (ModelError "model not loaded")).
  reflexivity.
Defined.


(** By the Trout rule and by the default the fallback can predict a
    species its own matcher does not list. *)
Example trout_predicted_but_not_suitable :
  let self := PredictionService_init failing_model failing_model no_water_quality_model in
  rule_based_fallback 7.0 10.0 10.0 = ("Trout", 0.90%float) ∧
  _get_suitable_species_basic self
    (basic_input_data (BasicFishPredictionRequest.mk 7.0 10.0 10.0)) = Ok ["Salmon"].
Proof. split; vm_compute; reflexivity. Qed.

(** ** The range of the weighted score *)

Section WeightedScoreRange.

(** Two floats that [=?] tells apart are different. *)
Lemma float_neq (x y : float) : (x =? y)%float = false → (y =? y)%float = true → x ≠ y.
Proof. intros Hxy Hyy ->. congruence. Qed.

Ltac weighted_cases data :=
  unfold _calculate_water_quality_score;
  destruct (data !! "ph") as [ph|];
  destruct (data !! "temperature") as [temp|];
  destruct (data !! "dissolved_oxygen") as [do_|];
  repeat match goal with
         | |- context [if (?a && ?b)%bool then _ else _] => destruct (a && b)%bool
         | |- context [if (?a <= ?b)%py then _ else _] =>
             lazymatch a with
             | 0%float => fail
             | _ => destruct (a <= b)%py
             end
         end.


(** X12: the weighted score is exactly 5.0 only when none of ph,
    temperature and dissolved_oxygen is in the input: no combination
    of bands of the parameters given yields 5.0. *)
Theorem weighted_score_neutral_iff_no_parameter (data : gmap string float) :
  _calculate_water_quality_score data = 5.0%float ↔
  data !! "ph" = None ∧ data !! "temperature" = None ∧ data !! "dissolved_oxygen" = None.
Proof.
  weighted_cases data;
    (split;
     [ intros H; try (exfalso; revert H; apply float_neq; reflexivity); done
     | intros (H1 & H2 & H3); try discriminate; reflexivity ]).
Qed.

(** X13: the weighted score is exactly 10.0 exactly when at least one
    of the three parameters is given and every one given lies in its
    best band: ph in [6.5,8.5], temperature in [20,30],
    dissolved_oxygen >= 6.0. *)
Theorem weighted_score_perfect_iff_best_bands (data : gmap string float) :
  _calculate_water_quality_score data = 10.0%float ↔
  (is_Some (data !! "ph") ∨ is_Some (data !! "temperature") ∨
   is_Some (data !! "dissolved_oxygen")) ∧
  match data !! "ph" with Some ph => (6.5 <= ph <= 8.5)%py | None => true end = true ∧
  match data !! "temperature" with Some temp => (20 <= temp <= 30)%py | None => true end = true ∧
  match data !! "dissolved_oxygen" with Some do_ => (do_ >= 6.0)%py | None => true end = true.
Proof.
  weighted_cases data;
    (split;
     [ intros H; try (exfalso; revert H; apply float_neq; reflexivity);
       (split; [eauto|done])
     | intros (Hsome & H1 & H2 & H3); try discriminate; try reflexivity;
       destruct Hsome as [[? [=]]|[[? [=]]|[? [=]]]] ]).
Qed.

End WeightedScoreRange.

(** ** More on the parameter analyzer *)

Section AnalyzerFacts.

Ltac closed_member := apply (bool_decide_unpack _); vm_compute; exact I.

Ltac lookup_blocks :=
  repeat (rewrite analysis_block_lookup; case_decide; [try discriminate | try done]).

Lemma analysis_block_forall_key
    (P : string → ParameterAnalysis → Prop) (o : option float)
    (f : float → ParameterAnalysis) (key : string) (m : gmap string ParameterAnalysis) :
  (∀ x, o = Some x → py_bool x = true → P key (f x)) →
  map_Forall P m →
  map_Forall P
    match o with
    | Some x => if py_bool x then <[key := f x]> m else m
    | None => m
    end.
Proof.
  intros Hf Hm. destruct o as [x|]; [destruct (py_bool x) eqn:Hx|]; try done.
  apply map_Forall_insert_2; [by apply Hf|done].
Qed.

(** Every entry of an analysis belongs to a parameter of the analyzer
    and records the value the input gives for it, which is true. *)
Lemma analysis_basic_entries (data : gmap string float) :
  map_Forall
    (λ k r, k ∈ basic_parameters ∧ data !! k = Some (value r) ∧ py_bool (value r) = true)
    (_analyze_parameters_basic data).
Proof.
  cbv beta zeta delta [_analyze_parameters_basic].
  repeat (apply analysis_block_forall_key;
          [intros x Hx Hbool; simpl; split; [closed_member|done]|]).
  apply map_Forall_empty.
Qed.

Lemma analysis_advanced_entries (data : gmap string float) :
  map_Forall
    (λ k r, k ∈ advanced_parameters ∧ data !! k = Some (value r) ∧ py_bool (value r) = true)
    (_analyze_parameters_advanced data).
Proof.
  cbv beta zeta delta [_analyze_parameters_advanced].
  do 3 (apply analysis_block_forall_key;
        [intros x Hx Hbool; simpl; split; [closed_member|done]|]).
  eapply map_Forall_impl; [apply analysis_basic_entries|].
  intros k r (Hk & Hv & Hbool). split; [|done].
  unfold advanced_parameters. apply elem_of_app. by left.
Qed.

Lemma analysis_advanced_lookup_basic (data : gmap string float) (k : string) :
  k ∈ basic_parameters →
  _analyze_parameters_advanced data !! k = _analyze_parameters_basic data !! k.
Proof.
  intros Hk. cbv beta zeta delta [_analyze_parameters_advanced].
  unfold basic_parameters in Hk. set_unfold.
  destruct Hk as [->|[->|[->|[]]]]; by lookup_blocks.
Qed.

(** X14: the advanced analysis extends the basic one: every entry of
    [_analyze_parameters_basic] is an entry of
    [_analyze_parameters_advanced] on the same input, unchanged. *)
Theorem advanced_analysis_extends_basic (data : gmap string float) :
  _analyze_parameters_basic data ⊆ _analyze_parameters_advanced data.
Proof.
  apply map_subseteq_spec. intros k r Hr.
  destruct (analysis_basic_entries data k r Hr) as (Hk & _ & _).
  by rewrite analysis_advanced_lookup_basic.
Qed.

(** X15: the advanced analysis has an entry for a key exactly when
    the key is one of ph, temperature, turbidity, dissolved_oxygen,
    ammonia and nitrite and the input holds a value for it that is true
    (not 0); the entry records that value. A missing key and a key the
    analyzer does not know (bod, co2, ...) give no entry. *)
Theorem analysis_entries_iff (data : gmap string float) (k : string) :
  (is_Some (_analyze_parameters_advanced data !! k) ↔
   k ∈ advanced_parameters ∧ ∃ v, data !! k = Some v ∧ py_bool v = true) ∧
  (∀ r, _analyze_parameters_advanced data !! k = Some r → data !! k = Some (value r)).
Proof.
  split; [split|].
  - intros [r Hr]. destruct (analysis_advanced_entries data k r Hr) as (Hk & Hv & Hbool).
    eauto.
  - intros (Hk & v & Hv & Hbool).
    destruct (analysis_advanced_entry data k v Hk Hv) as [_ Hentry].
    destruct Hentry as (r & Hr & _); [|by eexists].
    unfold py_bool in Hbool. by destruct (v =? 0)%float.
  - intros r Hr. by destruct (analysis_advanced_entries data k r Hr) as (_ & Hv & _).
Qed.

End AnalyzerFacts.

(** ** The simplified score against the rules and the analysis *)

Section ScoreAgreement.

Ltac lookup_blocks :=
  repeat (rewrite analysis_block_lookup; case_decide; [try discriminate | try done]).

Lemma predict_basic_fields (self : PredictionService) data r :
  predict_basic self data = Ok r →
  water_quality_score r =
    Some (simplified_water_quality_score (BasicFishPredictionRequest.ph data)
            (BasicFishPredictionRequest.temperature data)
            (BasicFishPredictionRequest.turbidity data)) ∧
  parameter_analysis r = _analyze_parameters_basic (basic_input_data data).
Proof.
  unfold predict_basic.
  destruct (match predict (basic_model self) (basic_input_data data) with
            | Ok prediction_result => prediction_result
            | Raise _ => _
            end) as [species c].
  destruct (_get_suitable_species_basic self (basic_input_data data)) as [l|]; simpl;
    [|done].
  by intros [= <-].
Qed.

Lemma ph_points_best (ph : float) : ph_points ph = 3%Z ↔ (6.5 <= ph <= 8.5)%py = true.
Proof. unfold ph_points. repeat case_match; split; done. Qed.

Lemma temperature_points_best (temperature : float) :
  temperature_points temperature = 3%Z ↔ (22 <= temperature <= 30)%py = true.
Proof. unfold temperature_points. repeat case_match; split; done. Qed.

Lemma turbidity_points_best (turbidity : float) :
  turbidity_points turbidity = 3%Z ↔ (30 <= turbidity <= 80)%py = true.
Proof. unfold turbidity_points. repeat case_match; split; done. Qed.

(** The simplified score is 10.0 exactly when each parameter earns
    its three points. *)
Lemma simplified_score_perfect (ph temperature turbidity : float) :
  simplified_water_quality_score ph temperature turbidity = 10.0%float ↔
  ph_points ph = 3%Z ∧ temperature_points temperature = 3%Z ∧
  turbidity_points turbidity = 3%Z.
Proof.
  unfold simplified_water_quality_score.
  destruct (points_range ph temperature turbidity) as (Hph & Htemp & Hturb).
  set_unfold.
  destruct Hph as [->|[->|[->|[]]]], Htemp as [->|[->|[->|[]]]],
    Hturb as [->|[->|[->|[]]]];
    (split;
     [ intros H; try (exfalso; revert H; apply float_neq; reflexivity); done
     | intros (H1 & H2 & H3); try discriminate; reflexivity ]).
Qed.

(** An entry of the basic analysis for a value inside the band of its
    parameter: optimal, with no recommendation. *)
Lemma analysis_basic_optimal (data : BasicFishPredictionRequest.t) :
  (6.5 <= BasicFishPredictionRequest.ph data <= 8.5)%py = true →
  (20 <= BasicFishPredictionRequest.temperature data <= 30)%py = true →
  (30 <= BasicFishPredictionRequest.turbidity data <= 80)%py = true →
  _analyze_parameters_basic (basic_input_data data) !! "ph" =
    Some (mkParameterAnalysis (BasicFishPredictionRequest.ph data) "optimal" None) ∧
  _analyze_parameters_basic (basic_input_data data) !! "temperature" =
    Some (mkParameterAnalysis (BasicFishPredictionRequest.temperature data) "optimal" None) ∧
  _analyze_parameters_basic (basic_input_data data) !! "turbidity" =
    Some (mkParameterAnalysis (BasicFishPredictionRequest.turbidity data) "optimal" None).
Proof.
  intros Hph Htemp Hturb.
  destruct (float_band_not_outside _ _ _ Hph) as [Hph1 Hph2].
  destruct (float_band_not_outside _ _ _ Htemp) as [Htemp1 Htemp2].
  destruct (float_band_not_outside _ _ _ Hturb) as [Hturb1 Hturb2].
  pose proof (float_band_true 6.5 8.5 _ eq_refl Hph) as Hph0.
  pose proof (float_band_true 20 30 _ eq_refl Htemp) as Htemp0.
  pose proof (float_band_true 30 80 _ eq_refl Hturb) as Hturb0.
  cbv beta zeta delta [_analyze_parameters_basic].
  change (basic_input_data data !! "ph") with (Some (BasicFishPredictionRequest.ph data)).
  change (basic_input_data data !! "temperature")
    with (Some (BasicFishPredictionRequest.temperature data)).
  change (basic_input_data data !! "turbidity")
    with (Some (BasicFishPredictionRequest.turbidity data)).
  cbv beta iota.
  rewrite Hph0, Htemp0, Hturb0, Hph, Htemp, Hturb, Hph1, Hph2, Htemp1, Htemp2, Hturb1, Hturb2.
  split; [|split]; reflexivity.
Qed.

(** X16: a result of [predict_basic] with water_quality_score 10.0
    has an analysis entry for each of ph, temperature and turbidity,
    and each entry is optimal and carries no recommendation. *)
Theorem perfect_score_means_all_optimal
    (self : PredictionService) (data : BasicFishPredictionRequest.t) (r : PredictionResult) :
  predict_basic self data = Ok r →
  water_quality_score r = Some 10.0%float →
  parameter_analysis r !! "ph" =
    Some (mkParameterAnalysis (BasicFishPredictionRequest.ph data) "optimal" None) ∧
  parameter_analysis r !! "temperature" =
    Some (mkParameterAnalysis (BasicFishPredictionRequest.temperature data) "optimal" None) ∧
  parameter_analysis r !! "turbidity" =
    Some (mkParameterAnalysis (BasicFishPredictionRequest.turbidity data) "optimal" None).
Proof.
  intros Hr Hscore. destruct (predict_basic_fields _ _ _ Hr) as [Hs ->].
  rewrite Hs in Hscore. injection Hscore as Hscore.
  apply simplified_score_perfect in Hscore as (Hph & Htemp & Hturb).
  apply ph_points_best in Hph. apply temperature_points_best in Htemp.
  apply turbidity_points_best in Hturb.
  apply analysis_basic_optimal; [done| |done].
  by apply (float_band_widen 22 30 20 30).
Qed.

(** X17: on values the Tilapia rule accepts the simplified score is
    exactly 10.0; on values the Trout rule accepts it is at most
    7.7777777777777777 (seven points of nine), since the temperature and
    the turbidity then earn two points at most. *)
Theorem rules_against_simplified_score (ph temperature turbidity : float) :
  (rule_tilapia ph temperature turbidity = true →
   simplified_water_quality_score ph temperature turbidity = 10.0%float) ∧
  (rule_trout ph temperature turbidity = true →
   (simplified_water_quality_score ph temperature turbidity <= 7.7777777777777777)%py = true).
Proof.
  split.
  - unfold rule_tilapia. intros H.
    apply andb_true_iff in H as [H Hturb]. apply andb_true_iff in H as [Hph Htemp].
    apply simplified_score_perfect. split; [|split].
    + apply ph_points_best. by apply (float_band_widen 6.5 7.5 6.5 8.5).
    + apply temperature_points_best. by apply (float_band_widen 25 30 22 30).
    + apply turbidity_points_best. by apply (float_band_widen 30 60 30 80).
  - unfold rule_trout. intros H.
    apply andb_true_iff in H as [H Hturb]. apply andb_true_iff in H as [Hph Htemp].
    assert (Htemp3 : (22 <= temperature <= 30)%py = false).
    { apply not_true_is_false. intros H3. apply andb_true_iff in H3 as [H3 _].
      by apply (trout_temperature_disjoint 22 temperature). }
    assert (Hturb3 : (30 <= turbidity <= 80)%py = false).
    { apply not_true_is_false. intros H3. apply andb_true_iff in H3 as [H3 _].
      apply andb_true_iff in Hturb as [_ Hturb].
      by apply (float_band_empty 30 25 turbidity). }
    unfold simplified_water_quality_score, temperature_points, turbidity_points.
    rewrite Htemp3, Hturb3.
    destruct (points_range ph temperature turbidity) as (Hpoints & _ & _).
    set_unfold.
    destruct Hpoints as [->|[->|[->|[]]]]; repeat case_match; reflexivity.
Qed.

Lemma rules_against_simplified_score_witness :
  simplified_water_quality_score 7.0 27.0 45.0 = 10.0%float ∧
  (simplified_water_quality_score 7.0 18.0 25.0 <= 7.7777777777777777)%py = true.
Proof.
  split.
  - apply (rules_against_simplified_score 7.0 27.0 45.0). reflexivity.
  - apply (rules_against_simplified_score 7.0 18.0 25.0). reflexivity.
Defined.

End ScoreAgreement.

Lemma perfect_score_means_all_optimal_witness :
  let self := PredictionService_init failing_model failing_model no_water_quality_model in
  ∃ r,
    predict_basic self (BasicFishPredictionRequest.mk 7.0 26.0 50.0) = Ok r ∧
    parameter_analysis r !! "ph" = Some (mkParameterAnalysis 7.0 "optimal" None) ∧
    parameter_analysis r !! "temperature" = Some (mkParameterAnalysis 26.0 "optimal" None) ∧
    parameter_analysis r !! "turbidity" = Some (mkParameterAnalysis 50.0 "optimal" None).
Proof.
  intros self.
  destruct (predict_basic_returns failing_model failing_model no_water_quality_model
              (BasicFishPredictionRequest.mk 7.0 26.0 50.0)) as (r & Hr & _ & Hscore & _).
  exists r. split; [exact Hr|].
  apply (perfect_score_means_all_optimal self (BasicFishPredictionRequest.mk 7.0 26.0 50.0) r Hr).
  exact Hscore.
Defined.

(** ** NaN inputs and the degraded advanced tier *)

Section EdgeInputs.

Variables (basic advanced : FishPredictionModel) (water_quality : WaterQualityModel).

#[local] Abbreviation self := (PredictionService_init basic advanced water_quality).

Lemma nan_band (lo hi x : float) : is_nan x = true → (lo <= x <= hi)%py = false.
Proof. intros Hx. by destruct (float_nan_leb x lo Hx) as [-> _]. Qed.

Lemma nan_bands (a b c d e f x y z : float) :
  is_nan x = true ∨ is_nan y = true ∨ is_nan z = true →
  (a <= x <= b)%py && (c <= y <= d)%py && (e <= z <= f)%py = false ∧
  (a <= x <= b)%py && ((c <= y <= d)%py && (e <= z <= f)%py) = false.
Proof.
  intros [H|[H|H]]; rewrite (nan_band _ _ _ H); split;
    by rewrite ?andb_false_r, ?andb_false_l.
Qed.

Lemma nan_fallback (ph temperature turbidity : float) :
  is_nan ph = true ∨ is_nan temperature = true ∨ is_nan turbidity = true →
  rule_based_fallback ph temperature turbidity = ("Tilapia", 0.7%float).
Proof.
  intros H. unfold rule_based_fallback, rule_tilapia, rule_catfish, rule_carp, rule_trout.
  by rewrite !(proj1 (nan_bands _ _ _ _ _ _ _ _ _ H)).
Qed.

Lemma nan_not_selected (data : BasicFishPredictionRequest.t) :
  is_nan (BasicFishPredictionRequest.ph data) = true ∨
  is_nan (BasicFishPredictionRequest.temperature data) = true ∨
  is_nan (BasicFishPredictionRequest.turbidity data) = true →
  List.filter (λ item : string * FishSpeciesInfo,
                 satisfies_basic (basic_input_data data) item.2)
    _initialize_species_info = [].
Proof.
  intros H. unfold _initialize_species_info. cbn [List.filter snd].
  rewrite !satisfies_basic_input, !species_in_range_two.
  by rewrite !(proj2 (nan_bands _ _ _ _ _ _ _ _ _ H)).
Qed.

(** X18: when ph, temperature or turbidity is a NaN, no rule of the
    fallback and no species of the catalog accepts the input:
    [predict_basic] returns an empty suitable_species and, when the model
    fails, the default Tilapia with confidence 0.7. *)
Theorem nan_input_matches_nothing (data : BasicFishPredictionRequest.t) :
  is_nan (BasicFishPredictionRequest.ph data) = true ∨
  is_nan (BasicFishPredictionRequest.temperature data) = true ∨
  is_nan (BasicFishPredictionRequest.turbidity data) = true →
  ∃ r,
    predict_basic self data = Ok r ∧
    suitable_species r = [] ∧
    (∀ e, predict basic (basic_input_data data) = Raise e →
          predicted_species r = "Tilapia" ∧ confidence r = 0.7%float).
Proof.
  intros Hnan.
  destruct (predict_basic_returns basic advanced water_quality data)
    as (r & Hr & Hpair & _ & _).
  exists r. split; [exact Hr|]. split.
  - pose proof (predict_basic_suitable _ _ _ Hr) as (l & Hl & ->).
    rewrite get_suitable_species_basic_init, (nan_not_selected data Hnan) in Hl.
    cbn [map] in Hl. by replace l with (@nil string) by congruence.
  - intros e He. rewrite He, (nan_fallback _ _ _ Hnan) in Hpair.
    by injection Hpair.
Qed.

Lemma predict_advanced_on_failure
    (service : PredictionService) (data : AdvancedFishPredictionRequest.t) (e : exn) :
  predict (advanced_model service) (advanced_input_data data) = Raise e →
  predict_advanced service data = predict_basic service (basic_data data).
Proof.
  intros Hmodel. unfold predict_advanced, predict_advanced_try. rewrite Hmodel. simpl.
  by destruct (predict_basic service (basic_data data)).
Qed.

(** X19: when the advanced model fails, the result of
    [predict_advanced] is a basic-tier result: its water_quality_score
    is the simplified score and is never absent, its analysis has
    entries for ph, temperature and turbidity only, and its
    suitable_species are those of the basic filter, with no test of
    dissolved oxygen, ammonia or nitrite. *)
Theorem degraded_advanced_result (data : AdvancedFishPredictionRequest.t) (e : exn) :
  predict advanced (advanced_input_data data) = Raise e →
  ∃ r,
    predict_advanced self data = Ok r ∧
    water_quality_score r =
      Some (simplified_water_quality_score (AdvancedFishPredictionRequest.ph data)
              (AdvancedFishPredictionRequest.temperature data)
              (AdvancedFishPredictionRequest.turbidity data)) ∧
    (∀ k, k ∉ basic_parameters → parameter_analysis r !! k = None) ∧
    map name (suitable_species r) =
      map fst (List.filter
                 (λ item : string * FishSpeciesInfo,
                    satisfies_basic (advanced_input_data data) item.2)
                 _initialize_species_info).
Proof.
  intros Hmodel.
  rewrite (predict_advanced_on_failure self data e Hmodel).
  destruct (predict_basic_returns basic advanced water_quality (basic_data data))
    as (r & Hr & _ & Hscore & Hanalysis).
  exists r. split; [exact Hr|]. split; [exact Hscore|]. split.
  - intros k Hk. rewrite Hanalysis. by apply analysis_basic_lookup_other.
  - pose proof (predict_basic_suitable _ _ _ Hr) as (l & Hl & ->).
    rewrite get_suitable_species_basic_init in Hl.
    rewrite resolve_species_names.
    transitivity
      (map fst (List.filter
                  (λ item : string * FishSpeciesInfo,
                     satisfies_basic (basic_input_data (basic_data data)) item.2)
                  _initialize_species_info)); [congruence | reflexivity].
Qed.

End EdgeInputs.

Lemma nan_input_matches_nothing_witness :
  ∃ r,
    predict_basic (PredictionService_init failing_model failing_model no_water_quality_model)
      (BasicFishPredictionRequest.mk 7.0 nan 40.0) = Ok r ∧
    suitable_species r = [] ∧
    (∀ e, predict failing_model
            (basic_input_data (BasicFishPredictionRequest.mk 7.0 nan 40.0)) = Raise e →
          predicted_species r = "Tilapia" ∧ confidence r = 0.7%float).
Proof.
  apply (nan_input_matches_nothing failing_model failing_model no_water_quality_model
           (BasicFishPredictionRequest.mk 7.0 nan 40.0)).
  right. left. reflexivity.
Defined.

Lemma degraded_advanced_result_witness :
  let data := sample_advanced_request 7.0 14.0 10.0 2.0 in
  ∃ r,
    predict_advanced
      (PredictionService_init failing_model failing_model failing_water_quality_model) data =
      Ok r ∧
    water_quality_score r = Some (simplified_water_quality_score 7.0 14.0 10.0) ∧
    (∀ k, k ∉ basic_parameters → parameter_analysis r !! k = None) ∧
    map name (suitable_species r) =
      map fst (List.filter
                 (λ item : string * FishSpeciesInfo,
                    satisfies_basic (advanced_input_data data) item.2)
                 _initialize_species_info).
Proof.
  intros data.
  apply (degraded_advanced_result failing_model failing_model failing_water_quality_model
           data (ModelError "model not loaded")).
  reflexivity.
Defined.

(** ** Poor water and the fallback score of the advanced tier *)

Section PoorWater.

Ltac closed_member := apply (bool_decide_unpack _); vm_compute; exact I.

(** A species kept although dissolved oxygen, ammonia or nitrite
    misses the default criteria is one of the tolerant three. *)
Lemma poor_water_criteria (species : string) (do_ ammonia nitrite : float) :
  (do_ >= 5.0)%py = false ∨ (ammonia < 0.1)%py = false ∨ (nitrite < 0.05)%py = false →
  advanced_criteria species do_ ammonia nitrite = true →
  species ∈ ["Tilapia"; "Catfish"; "Carp"].
Proof.
  intros Hpoor. unfold advanced_criteria.
  destruct (String.eqb species "Salmon" || String.eqb species "Trout").
  - intros H. exfalso.
    apply andb_true_iff in H as [H Hnitrite]. apply andb_true_iff in H as [Hdo Hammonia].
    destruct Hpoor as [Hp|[Hp|Hp]].
    + by rewrite (float_leb_trans 5.0 7.0 do_) in Hp.
    + by rewrite (float_ltb_leb_trans ammonia 0.05 0.1) in Hp.
    + by rewrite (float_ltb_leb_trans nitrite 0.01 0.05) in Hp.
  - destruct (String.eqb species "Tilapia") eqn:Htilapia;
      [apply String.eqb_eq in Htilapia as ->; intros _; closed_member|].
    destruct (String.eqb species "Catfish") eqn:Hcatfish;
      [apply String.eqb_eq in Hcatfish as ->; intros _; closed_member|].
    destruct (String.eqb species "Carp") eqn:Hcarp;
      [apply String.eqb_eq in Hcarp as ->; intros _; closed_member|].
    simpl. intros H. exfalso.
    apply andb_true_iff in H as [H Hnitrite]. apply andb_true_iff in H as [Hdo Hammonia].
    destruct Hpoor as [Hp|[Hp|Hp]]; congruence.
Qed.

(** X20: when the dissolved oxygen used is not at least 5.0, or the
    ammonia is not below 0.1, or the nitrite is not below 0.05, the
    advanced filter returns none but the tolerant species Tilapia,
    Catfish and Carp, whatever the catalog holds. *)
Theorem poor_water_leaves_tolerant_species
    (self : PredictionService) (data : gmap string float) (from_advanced : list string) :
  (default 6.0%float (data !! "dissolved_oxygen") >= 5.0)%py = false ∨
  (default 0.05%float (data !! "ammonia") < 0.1)%py = false ∨
  (default 0.01%float (data !! "nitrite") < 0.05)%py = false →
  _get_suitable_species_advanced self data = Ok from_advanced →
  ∀ species, species ∈ from_advanced → species ∈ ["Tilapia"; "Catfish"; "Carp"].
Proof.
  intros Hpoor Hadvanced species Hin.
  unfold _get_suitable_species_advanced in Hadvanced.
  destruct (_get_suitable_species_basic self data) as [from_basic|]; simpl in Hadvanced;
    [|done].
  injection Hadvanced as <-. rewrite suitable_loop_advanced_filter in Hin. simpl in Hin.
  apply list_elem_of_In, filter_In in Hin as [_ Hin].
  by apply (poor_water_criteria species _ _ _ Hpoor).
Qed.

Lemma poor_water_leaves_tolerant_species_witness :
  let self := PredictionService_init failing_model failing_model no_water_quality_model in
  let data : gmap string float :=
    <["ammonia" := 0.3%float]>
      (<["turbidity" := 40.0%float]>
         (<["temperature" := 26.0%float]> (<["ph" := 7.0%float]> ∅))) in
  _get_suitable_species_basic self data = Ok ["Tilapia"; "Catfish"; "Carp"; "Shrimp"] ∧
  ∀ species, species ∈ ["Tilapia"; "Catfish"; "Carp"] →
             species ∈ ["Tilapia"; "Catfish"; "Carp"].
Proof.
  intros self data. split; [vm_compute; reflexivity|].
  apply (poor_water_leaves_tolerant_species self data ["Tilapia"; "Catfish"; "Carp"]).
  - right. left. vm_compute. reflexivity.
  - vm_compute. reflexivity.
Defined.

End PoorWater.

Section AdvancedFallbackScore.

Variables (basic advanced : FishPredictionModel) (water_quality : WaterQualityModel).

#[local] Abbreviation self := (PredictionService_init basic advanced water_quality).

(** On the input of [predict_advanced], which holds all of ph,
    temperature and dissolved_oxygen, the weighted score stays between
    3.0000000000000004 and 10 and is never the neutral 5.0. *)
Lemma weighted_score_full_input (data : AdvancedFishPredictionRequest.t) :
  (3.0000000000000004 <= _calculate_water_quality_score (advanced_input_data data) <= 10)%py
    = true ∧
  _calculate_water_quality_score (advanced_input_data data) ≠ 5.0%float.
Proof.
  unfold _calculate_water_quality_score.
  change (advanced_input_data data !! "ph") with (Some (AdvancedFishPredictionRequest.ph data)).
  change (advanced_input_data data !! "temperature")
    with (Some (AdvancedFishPredictionRequest.temperature data)).
  change (advanced_input_data data !! "dissolved_oxygen")
    with (Some (AdvancedFishPredictionRequest.dissolved_oxygen data)).
  cbv beta iota.
  repeat match goal with
         | |- context [if (?a && ?b)%bool then _ else _] => destruct (a && b)%bool
         | |- context [if (?a <= ?b)%py then _ else _] =>
             lazymatch a with
             | 0%float => fail
             | _ => destruct (a <= b)%py
             end
         end;
    (split; [reflexivity | apply float_neq; reflexivity]).
Qed.

(** X21: when the advanced model answers and the configured
    water-quality model fails, the water_quality_score of
    [predict_advanced] is the weighted score of the input, which lies
    between 3.0000000000000004 and 10 and is never the neutral 5.0,
    since ph, temperature and dissolved_oxygen are always in the input. *)
Theorem advanced_fallback_score_range
    (data : AdvancedFishPredictionRequest.t) (species : string) (c : float) (e : exn) :
  predict advanced (advanced_input_data data) = Ok (species, c) →
  model water_quality = true →
  predict_score water_quality (advanced_input_data data) = Raise e →
  ∃ r score,
    predict_advanced self data = Ok r ∧
    water_quality_score r = Some score ∧
    score = _calculate_water_quality_score (advanced_input_data data) ∧
    (3.0000000000000004 <= score <= 10)%py = true ∧
    score ≠ 5.0%float.
Proof.
  intros Hmodel Hconfigured Hfails.
  destruct (predict_advanced_returns basic advanced water_quality data species c Hmodel)
    as (r & Hr & _ & _ & Hscore & _).
  rewrite Hconfigured, Hfails in Hscore.
  exists r, (_calculate_water_quality_score (advanced_input_data data)).
  split; [exact Hr|]. split; [exact Hscore|]. split; [reflexivity|].
  apply weighted_score_full_input.
Qed.

End AdvancedFallbackScore.

Lemma advanced_fallback_score_range_witness :
  ∃ r score,
    predict_advanced
      (PredictionService_init failing_model (constant_model "Carp" 0.8)
         failing_water_quality_model)
      (sample_advanced_request 5.0 40.0 150.0 2.0) = Ok r ∧
    water_quality_score r = Some score ∧
    score = _calculate_water_quality_score
              (advanced_input_data (sample_advanced_request 5.0 40.0 150.0 2.0)) ∧
    (3.0000000000000004 <= score <= 10)%py = true ∧
    score ≠ 5.0%float.
Proof.
  apply (advanced_fallback_score_range failing_model (constant_model "Carp" 0.8)
           failing_water_quality_model (sample_advanced_request 5.0 40.0 150.0 2.0)
           "Carp" 0.8 (ModelError "prediction failed")); reflexivity.
Defined.

(** ** Values at the edge of the ranges *)

Section EdgeValues.

(** The least weighted score is reached with ph and dissolved oxygen
    both in their lowest band and no temperature. *)
Example weighted_score_least :
  _calculate_water_quality_score
    (<["dissolved_oxygen" := 1.0%float]> (<["ph" := 5.0%float]> ∅)) =
  2.9999999999999991%float.
Proof. vm_compute. reflexivity. Qed.

Ltac nan_entry Hv Htrue Hle Hlt :=
  repeat (rewrite analysis_block_lookup; case_decide;
          [ try discriminate; rewrite Hv; cbv beta iota; rewrite Htrue; cbv beta iota
          | try done ]);
  rewrite ?(proj1 (Hle _)), ?(proj2 (Hle _)), ?(proj1 (Hlt _)), ?(proj2 (Hlt _));
  reflexivity.

Lemma float_nan_ltb (x a : float) :
  is_nan x = true → (a < x)%py = false ∧ (x < a)%py = false.
Proof.
  intros Hx. apply Prim2SF_is_nan in Hx. rewrite !ltb_spec, Hx. unfold SFltb.
  split; [by destruct (Prim2SF a) | done].
Qed.

Lemma float_nan_true (x : float) : is_nan x = true → py_bool x = true.
Proof.
  intros Hx. apply Prim2SF_is_nan in Hx. unfold py_bool.
  by rewrite FloatAxioms.eqb_spec, Hx.
Qed.

(** X22: a NaN given for any of ph, temperature, turbidity,
    dissolved_oxygen, ammonia and nitrite gets an entry in the advanced
    analysis with the status suboptimal and no recommendation. *)
Theorem nan_value_entry (data : gmap string float) (k : string) (v : float) :
  k ∈ advanced_parameters →
  data !! k = Some v →
  is_nan v = true →
  _analyze_parameters_advanced data !! k = Some (mkParameterAnalysis v "suboptimal" None).
Proof.
  intros Hk Hv Hnan.
  pose proof (float_nan_true v Hnan) as Htrue.
  assert (Hle : ∀ a, (a <= v)%py = false ∧ (v <= a)%py = false)
    by (intros a; by apply float_nan_leb).
  assert (Hlt : ∀ a, (a < v)%py = false ∧ (v < a)%py = false)
    by (intros a; by apply float_nan_ltb).
  unfold advanced_parameters in Hk. apply elem_of_app in Hk as [Hk|Hk].
  - rewrite (analysis_advanced_lookup_basic data k Hk).
    unfold basic_parameters in Hk. set_unfold.
    destruct Hk as [->|[->|[->|[]]]];
      cbv beta zeta delta [_analyze_parameters_basic]; nan_entry Hv Htrue Hle Hlt.
  - set_unfold.
    destruct Hk as [->|[->|[->|[]]]];
      cbv beta zeta delta [_analyze_parameters_advanced]; nan_entry Hv Htrue Hle Hlt.
Qed.

Lemma nan_value_entry_witness :
  _analyze_parameters_advanced
    (<["nitrite" := nan]> (<["ph" := 7.0%float]> ∅)) !! "nitrite" =
  Some (mkParameterAnalysis nan "suboptimal" None).
Proof.
  apply nan_value_entry;
    [apply (bool_decide_unpack _); vm_compute; exact I | reflexivity | reflexivity].
Defined.

End EdgeValues.
